(** * flashback / replay / stats.go: the statistics collector

    A shallow embedding of [src/replay/src/replay/stats.go] and the
    properties of its collectors.

    - Go's [int64], [int] (64-bit target) and [time.Duration] are integers
      in [Z] with two's-complement wrap-around written out ([wrap64]).
    - [*StatsCollector] is a location in a heap of collector objects, so
      that methods mutate their receiver in place and [CombineStats] can be
      shown to leave its arguments alone.  A location that is not allocated
      stands for the nil pointer: dereferencing it panics.
    - [chan Latency] is a channel name; the store keeps, per channel, the
      values sent on it so far, in order.  Blocking of a send is not
      modelled: a send completes.
    - [time.Now()] and [rand.Float64()] are inputs of the methods that call
      them.
    - [float64] arithmetic is an interface ([Float64]) with two instances:
      the IEEE 754 binary64 numbers of the machine, and exact rationals.
    - The maps of a collector are part of its object: [NewStatsCollector]
      is the only place that makes them, so they are never nil and no two
      collectors share one.

    The definitions come first: the model of the code, then the states and
    worlds that the statements name, then concrete collectors.  The
    properties follow, and at the end their evaluation at the concrete
    collectors. *)

From Stdlib Require Import ZArith QArith Qcanon Floats.
From stdpp Require Import gmap strings list fin_maps numbers.

Local Open Scope Z_scope.

(** ** Machine integers *)

(** Two's-complement reduction to 64 bits. *)
Definition wrap64 (z : Z) : Z := (z + 2 ^ 63) `mod` 2 ^ 64 - 2 ^ 63.

Definition minInt64 : Z := - 2 ^ 63.
Definition maxInt64 : Z := 2 ^ 63 - 1.

Definition is_int64 (z : Z) : Prop := minInt64 ≤ z ≤ maxInt64.

(** [x + y] on [int64], [int] and [time.Duration]. *)
Definition int64_add (x y : Z) : Z := wrap64 (x + y).

(** ** Time *)

(** An instant, in nanoseconds from a fixed origin. *)
Abbreviation Time := Z (only parsing).

(** [time.Duration]: an [int64] number of nanoseconds. *)
Abbreviation Duration := Z (only parsing).

(** [time.Second]. *)
Definition Second : Duration := 1000000000.

(** [t.Sub(u)] of the Go library: the difference, replaced by the largest
    or smallest duration when it does not fit. *)
Definition Sub (t u : Time) : Duration :=
  if maxInt64 <? t - u then maxInt64
  else if t - u <? minInt64 then minInt64
  else t - u.

(** [d.Nanoseconds()] of the Go library. *)
Definition Nanoseconds (d : Duration) : Z := d.

(** ** Floating point *)

(** The operations on [float64] that the collector uses. *)
Class Float64 (F : Type) := {
  (** the conversion [float64(x)] of an integer *)
  float64_of_int : Z → F;
  fadd : F → F → F;
  fmul : F → F → F;
  fdiv : F → F → F;
  (** [x == y] and [x < y] *)
  feqb : F → F → bool;
  fltb : F → F → bool;
  feqb_0_0 : feqb (float64_of_int 0) (float64_of_int 0) = true;
  feqb_1_1 : feqb (float64_of_int 1) (float64_of_int 1) = true;
  feqb_1_0 : feqb (float64_of_int 1) (float64_of_int 0) = false;
}.

(** IEEE 754 binary64, as the machine computes: the conversion rounds to
    the nearest representable number, ties to even. *)
#[export] Program Instance ieee_Float64 : Float64 float := {|
  float64_of_int z := SF2Prim (binary_normalize prec emax z 0 false);
  fadd := PrimFloat.add;
  fmul := PrimFloat.mul;
  fdiv := PrimFloat.div;
  feqb := PrimFloat.eqb;
  fltb := PrimFloat.ltb;
|}.
Solve All Obligations with (vm_compute; reflexivity).

(** Exact arithmetic on rationals: what the [float64] expressions denote
    when rounding is left out. *)
#[export] Program Instance exact_Float64 : Float64 Qc := {|
  float64_of_int := Qc_of_Z;
  fadd := Qcplus;
  fmul := Qcmult;
  fdiv := Qcdiv;
  feqb x y := bool_decide (x = y);
  fltb x y := bool_decide (x < y)%Qc;
|}.
Solve All Obligations with (vm_compute; reflexivity).

(** ** Results of a call that can panic *)

Inductive result (A : Type) : Type :=
  | Ok (a : A)
  | Panic.
Arguments Ok {A} a.
Arguments Panic {A}.

(** The list [AllOpTypes] of the operation types, which another file of
    the package declares. *)
Class OpTypes (OpType : Type) := {
  AllOpTypes : list OpType;
}.

Section Collector.

(** The operation types and the list of all of them are declared in
    another file of the package: they are parameters here. *)
Context {OpType : Type} `{Countable OpType} `{OpTypes OpType}.

Context {F : Type} `{Float64 F}.

(** ** Data *)

Record Latency : Type := mkLatency {
  Latency_OpType : OpType;
  Latency_Latency : Duration;
}.

(** A channel name. *)
Definition chan : Type := positive.

Record StatsCollector : Type := mkStatsCollector {
  counts : gmap OpType Z;
  durations : gmap OpType Duration;
  total : Z;
  sampleRate : F;
  epoch : option Time;
  lastOp : option OpType;
  latencyChan : option chan;
}.

Definition set_counts (v : gmap OpType Z) (c : StatsCollector) : StatsCollector :=
  mkStatsCollector v (durations c) (total c) (sampleRate c) (epoch c) (lastOp c) (latencyChan c).
Definition set_durations (v : gmap OpType Duration) (c : StatsCollector) : StatsCollector :=
  mkStatsCollector (counts c) v (total c) (sampleRate c) (epoch c) (lastOp c) (latencyChan c).
Definition set_total (v : Z) (c : StatsCollector) : StatsCollector :=
  mkStatsCollector (counts c) (durations c) v (sampleRate c) (epoch c) (lastOp c) (latencyChan c).
Definition set_sampleRate (v : F) (c : StatsCollector) : StatsCollector :=
  mkStatsCollector (counts c) (durations c) (total c) v (epoch c) (lastOp c) (latencyChan c).
Definition set_epoch (v : option Time) (c : StatsCollector) : StatsCollector :=
  mkStatsCollector (counts c) (durations c) (total c) (sampleRate c) v (lastOp c) (latencyChan c).
Definition set_lastOp (v : option OpType) (c : StatsCollector) : StatsCollector :=
  mkStatsCollector (counts c) (durations c) (total c) (sampleRate c) (epoch c) v (latencyChan c).
Definition set_latencyChan (v : option chan) (c : StatsCollector) : StatsCollector :=
  mkStatsCollector (counts c) (durations c) (total c) (sampleRate c) (epoch c) (lastOp c) v.

(** [m[k]] on a Go map: the zero value when the key is absent. *)
Definition index (m : gmap OpType Z) (k : OpType) : Z := default 0 (m !! k).

(** A pointer to a collector. *)
Definition loc : Type := positive.

Record World : Type := mkWorld {
  heap : gmap loc StatsCollector;
  chans : gmap chan (list Latency);
}.

(** ** The monad of the methods: state, and panics *)

Definition M (A : Type) : Type := World → result (A * World).

#[export] Instance M_ret : MRet M := λ A a w, Ok (a, w).
#[export] Instance M_bind : MBind M := λ A B k m w,
  match m w with
  | Ok (a, w') => k a w'
  | Panic => Panic
  end.

Definition panic {A} : M A := λ _, Panic.

(** [*p] *)
Definition load (p : loc) : M StatsCollector := λ w,
  match heap w !! p with
  | Some c => Ok (c, w)
  | None => Panic
  end.

(** [*p = c] *)
Definition store (p : loc) (c : StatsCollector) : M unit := λ w,
  match heap w !! p with
  | Some _ => Ok (tt, mkWorld (<[p := c]> (heap w)) (chans w))
  | None => Panic
  end.

(** An assignment to one field of [*p]. *)
Definition modify (p : loc) (f : StatsCollector → StatsCollector) : M unit :=
  c ← load p; store p (f c).

(** [&StatsCollector{...}]: a new object, at an address not in use. *)
Definition alloc (c : StatsCollector) : M loc := λ w,
  let p := fresh (dom (heap w)) in
  Ok (p, mkWorld (<[p := c]> (heap w)) (chans w)).

(** [ch <- x] *)
Definition send (ch : chan) (x : Latency) : M unit := λ w,
  Ok (tt, mkWorld (heap w) (<[ch := default [] (chans w !! ch) ++ [x]]> (chans w))).

(** [*q] for a pointer to an operation type. *)
Definition deref {A} (q : option A) : M A :=
  match q with
  | Some a => mret a
  | None => panic
  end.

(** [for _, x := range l { body }] *)
Fixpoint range {A} (l : list A) (body : A → M unit) : M unit :=
  match l with
  | [] => mret tt
  | x :: l' => body x;; range l' body
  end.

(** ** The collector *)

Definition NewStatsCollector : M loc :=
  let '(counts, durations) :=
    foldl (λ '(counts, durations) opType,
             (<[opType := 0]> counts, <[opType := 0]> durations))
          (∅, ∅) AllOpTypes in
  alloc {| counts := counts;
           durations := durations;
           total := 0;
           sampleRate := float64_of_int 1;
           epoch := None;
           lastOp := None;
           latencyChan := None |}.

(** Whether [StartOp] starts the timer, for this rate and this draw. *)
Definition sampled (rate draw : F) : bool :=
  if feqb rate (float64_of_int 0) then false
  else feqb rate (float64_of_int 1) || fltb draw rate.

Definition StartOp (s : loc) (opType : OpType) (now : Time) (draw : F) : M unit :=
  modify s (λ c, set_total (int64_add (total c) 1) c);;
  modify s (λ c, set_counts (<[opType := int64_add (index (counts c) opType) 1]> (counts c)) c);;
  c ← load s;
  if feqb (sampleRate c) (float64_of_int 0) then mret tt
  else if feqb (sampleRate c) (float64_of_int 1) || fltb draw (sampleRate c) then
    modify s (set_epoch (Some now));;
    modify s (set_lastOp (Some opType))
  else mret tt.

Definition EndOp (s : loc) (now : Time) : M unit :=
  c ← load s;
  match epoch c with
  | None => mret tt
  | Some e =>
      let duration := Sub now e in
      op ← deref (lastOp c);
      modify s (λ c, set_durations
                       (<[op := int64_add (index (durations c) op) duration]> (durations c)) c);;
      c ← load s;
      match latencyChan c with
      | Some ch => send ch (mkLatency op duration)
      | None => mret tt
      end;;
      modify s (set_epoch None);;
      modify s (set_lastOp None)
  end.

Definition Count (s : loc) (opType : OpType) : M Z :=
  c ← load s; mret (index (counts c) opType).

Definition TotalTime (s : loc) (opType : OpType) : M Duration :=
  c ← load s; mret (index (durations c) opType).

Definition OpsSec (s : loc) (opType : OpType) : M F :=
  d ← TotalTime s opType;
  let nano := Nanoseconds d in
  if nano =? 0 then mret (float64_of_int 0)
  else
    c ← load s;
    mret (fdiv (fmul (float64_of_int (index (counts c) opType)) (float64_of_int Second))
               (float64_of_int nano)).

(** [d.Seconds()] of the Go library. *)
Definition Seconds (d : Duration) : F :=
  let sec := d `quot` Second in
  let nsec := d `rem` Second in
  fadd (float64_of_int sec) (fdiv (float64_of_int nsec) (float64_of_int 1000000000)).

Definition LatencyInMs (s : loc) (opType : OpType) : M F :=
  c ← load s;
  let count := float64_of_int (index (counts c) opType) in
  if feqb count (float64_of_int 0) then mret (float64_of_int 0)
  else
    d ← TotalTime s opType;
    let sec := Seconds d in
    mret (fmul (fdiv sec count) (float64_of_int 1000)).

Definition SampleLatencies (s : loc) (rate : F) (latencyChannel : option chan) : M unit :=
  modify s (set_sampleRate rate);;
  modify s (set_latencyChan latencyChannel).

Definition CombineStats (statsList : list loc) : M loc :=
  newStats ← NewStatsCollector;
  range AllOpTypes (λ opType,
    range statsList (λ stats,
      st ← load stats;
      modify newStats (λ n, set_counts
        (<[opType := int64_add (index (counts n) opType) (index (counts st) opType)]> (counts n)) n);;
      st ← load stats;
      modify newStats (λ n, set_durations
        (<[opType := int64_add (index (durations n) opType) (index (durations st) opType)]>
           (durations n)) n);;
      st ← load stats;
      modify newStats (λ n, set_total (int64_add (total n) (total st)) n)));;
  mret newStats.

(** ** The interface and its two implementations *)

(** [IStatsCollector]: the methods of a collector of type [T]. *)
Class IStatsCollector (T : Type) := {
  iStartOp : T → OpType → Time → F → M unit;
  iEndOp : T → Time → M unit;
  iCount : T → OpType → M Z;
  iOpsSec : T → OpType → M F;
  iLatencyInMs : T → OpType → M F;
  iSampleLatencies : T → F → option chan → M unit;
}.

#[export] Instance StatsCollector_methods : IStatsCollector loc := {|
  iStartOp := StartOp;
  iEndOp := EndOp;
  iCount := Count;
  iOpsSec := OpsSec;
  iLatencyInMs := LatencyInMs;
  iSampleLatencies := SampleLatencies;
|}.

(** The collector that does nothing: a struct with no field. *)
Inductive nullStatsCollector : Type := mkNullStatsCollector.

Definition null_StartOp (e : nullStatsCollector) (opType : OpType) : M unit := mret tt.
Definition null_EndOp (e : nullStatsCollector) : M unit := mret tt.
Definition null_SampleLatencies (e : nullStatsCollector) (rate : F)
  (latencyChannel : option chan) : M unit := mret tt.
Definition null_Count (e : nullStatsCollector) (opType : OpType) : M Z := mret 0.
Definition null_TotalTime (e : nullStatsCollector) (opType : OpType) : M Duration := mret 0.
Definition null_OpsSec (e : nullStatsCollector) (opType : OpType) : M F :=
  mret (float64_of_int 0).
Definition null_LatencyInMs (e : nullStatsCollector) (opType : OpType) : M F :=
  mret (float64_of_int 0).

#[export] Instance nullStatsCollector_methods : IStatsCollector nullStatsCollector := {|
  iStartOp e opType _ _ := null_StartOp e opType;
  iEndOp e _ := null_EndOp e;
  iCount := null_Count;
  iOpsSec := null_OpsSec;
  iLatencyInMs := null_LatencyInMs;
  iSampleLatencies := null_SampleLatencies;
|}.

Definition NewNullStatsCollector : M nullStatsCollector := mret mkNullStatsCollector.

(** A call of a method of the interface, with the time and the random
    draw that the call would read. *)
Inductive call : Type :=
  | CallStartOp (opType : OpType) (now : Time) (draw : F)
  | CallEndOp (now : Time)
  | CallCount (opType : OpType)
  | CallOpsSec (opType : OpType)
  | CallLatencyInMs (opType : OpType)
  | CallSampleLatencies (rate : F) (latencyChannel : option chan).

(** What a call returns. *)
Inductive value : Type :=
  | VUnit
  | VInt (z : Z)
  | VFloat (f : F).

Definition perform {T} `{IStatsCollector T} (x : T) (c : call) : M value :=
  match c with
  | CallStartOp opType now draw => iStartOp x opType now draw;; mret VUnit
  | CallEndOp now => iEndOp x now;; mret VUnit
  | CallCount opType => n ← iCount x opType; mret (VInt n)
  | CallOpsSec opType => f ← iOpsSec x opType; mret (VFloat f)
  | CallLatencyInMs opType => f ← iLatencyInMs x opType; mret (VFloat f)
  | CallSampleLatencies rate ch => iSampleLatencies x rate ch;; mret VUnit
  end.

(** The calls of [cs], one after the other, and what each returned. *)
Fixpoint perform_all {T} `{IStatsCollector T} (x : T) (cs : list call) : M (list value) :=
  match cs with
  | [] => mret []
  | c :: cs' => v ← perform x c; vs ← perform_all x cs'; mret (v :: vs)
  end.

(** The zero value of the result type of a call. *)
Definition zero_value (c : call) : value :=
  match c with
  | CallCount _ => VInt 0
  | CallOpsSec _ | CallLatencyInMs _ => VFloat (float64_of_int 0)
  | CallStartOp _ _ _ | CallEndOp _ | CallSampleLatencies _ _ => VUnit
  end.

(** ** Auxiliary definitions: the states and worlds that the properties name *)

(** The world with the object at [p] replaced by [c]. *)
Definition upd (w : World) (p : loc) (c : StatsCollector) : World :=
  mkWorld (<[p := c]> (heap w)) (chans w).

(** The world after [x] was sent on [ch]. *)
Definition sent (w : World) (ch : chan) (x : Latency) : World :=
  mkWorld (heap w) (<[ch := default [] (chans w !! ch) ++ [x]]> (chans w)).

(** The receiver after the two counters of [StartOp] were incremented. *)
Definition counted (c : StatsCollector) (opType : OpType) : StatsCollector :=
  set_counts (<[opType := int64_add (index (counts c) opType) 1]> (counts c))
             (set_total (int64_add (total c) 1) c).

(** The receiver after [StartOp]. *)
Definition started (c : StatsCollector) (opType : OpType) (now : Time) (draw : F)
  : StatsCollector :=
  if sampled (sampleRate c) draw
  then set_lastOp (Some opType) (set_epoch (Some now) (counted c opType))
  else counted c opType.

(** The receiver after [EndOp] closed the pending operation [op] with the
    duration [d]. *)
Definition closed (c : StatsCollector) (op : OpType) (d : Duration) : StatsCollector :=
  set_lastOp None (set_epoch None
    (set_durations (<[op := int64_add (index (durations c) op) d]> (durations c)) c)).

(** The world after [x] was sent on the channel [ch] unless it is nil. *)
Definition emitted (w : World) (ch : option chan) (x : Latency) : World :=
  match ch with
  | Some ch => sent w ch x
  | None => w
  end.

(** The receiver after [SampleLatencies]. *)
Definition configured (c : StatsCollector) (rate : F) (ch : option chan) : StatsCollector :=
  set_latencyChan ch (set_sampleRate rate c).

(** The two maps that the loop of [NewStatsCollector] builds. *)
Definition zeroed : gmap OpType Z * gmap OpType Duration :=
  foldl (λ '(counts, durations) opType,
           (<[opType := 0]> counts, <[opType := 0]> durations))
        (∅, ∅) AllOpTypes.

(** The object that [NewStatsCollector] allocates. *)
Definition new_collector : StatsCollector :=
  {| counts := zeroed.1;
     durations := zeroed.2;
     total := 0;
     sampleRate := float64_of_int 1;
     epoch := None;
     lastOp := None;
     latencyChan := None |}.

(** C2, as the specification words it: the channel that receives the
    sample of an operation that was pending when [SampleLatencies] was
    called is the one that was installed before the call, as if the call
    had not been made. *)
Definition SampleLatencies_not_retroactive : Prop :=
  ∀ (w : World) s c e op rate ch now w_configured w_plain,
    heap w !! s = Some c →
    epoch c = Some e →
    lastOp c = Some op →
    (SampleLatencies s rate ch;; EndOp s now) w = Ok (tt, w_configured) →
    EndOp s now w = Ok (tt, w_plain) →
    chans w_configured = chans w_plain.

(** The two pointers of the pending operation are set together: when
    [epoch] is not nil, [lastOp] is not nil either. *)
Definition pending_ok (c : StatsCollector) : Prop :=
  is_Some (epoch c) → is_Some (lastOp c).

(** The body of the inner loop of [CombineStats]. *)
Definition combine_body (newStats : loc) (opType : OpType) (stats : loc) : M unit :=
  st ← load stats;
  modify newStats (λ n, set_counts
    (<[opType := int64_add (index (counts n) opType) (index (counts st) opType)]> (counts n)) n);;
  st ← load stats;
  modify newStats (λ n, set_durations
    (<[opType := int64_add (index (durations n) opType) (index (durations st) opType)]>
       (durations n)) n);;
  st ← load stats;
  modify newStats (λ n, set_total (int64_add (total n) (total st)) n).

(** The new collector after one round of the inner loop, for the input
    object [st]. *)
Definition added (opType : OpType) (n st : StatsCollector) : StatsCollector :=
  set_total (int64_add (total n) (total st))
    (set_durations
       (<[opType := int64_add (index (durations n) opType) (index (durations st) opType)]>
          (durations n))
       (set_counts
          (<[opType := int64_add (index (counts n) opType) (index (counts st) opType)]>
             (counts n)) n)).

(** The new collector after the inner loop for [opType], and after the
    outer loop over the types [l]. *)
Definition added_all (opType : OpType) (n : StatsCollector) (sts : list StatsCollector)
  : StatsCollector := foldl (added opType) n sts.

Definition combined_over (l : list OpType) (n : StatsCollector) (sts : list StatsCollector)
  : StatsCollector := foldl (λ n opType, added_all opType n sts) n l.

(** The pointers [ps] point to the objects [sts], none of them at [q]. *)
Definition point_to (w : World) (q : loc) (ps : list loc) (sts : list StatsCollector) : Prop :=
  Forall2 (λ p st, heap w !! p = Some st ∧ p ≠ q) ps sts.

(** The sum of a list of integers. *)
Definition sumZ (l : list Z) : Z := foldr Z.add 0 l.

(** The counters of a collector are [int64] numbers. *)
Definition counters_int64 (n : StatsCollector) : Prop :=
  is_int64 (total n) ∧
  ∀ t, is_int64 (index (counts n) t) ∧ is_int64 (index (durations n) t).

(** ** Auxiliary definitions: sequences of calls on one collector *)

(** The values sent so far on the channel [ch]. *)
Definition sent_on (w : World) (ch : chan) : list Latency :=
  default [] (chans w !! ch).

(** The receiver after the call [cl], when the pointers of its pending
    operation are in order. *)
Definition after_call (c : StatsCollector) (cl : call) : StatsCollector :=
  match cl with
  | CallStartOp opType now draw => started c opType now draw
  | CallEndOp now =>
      match epoch c, lastOp c with
      | Some e, Some op => closed c op (Sub now e)
      | _, _ => c
      end
  | CallSampleLatencies rate ch => configured c rate ch
  | CallCount _ | CallOpsSec _ | CallLatencyInMs _ => c
  end.

(** The receiver after the calls [cs]. *)
Definition after_calls (c : StatsCollector) (cs : list call) : StatsCollector :=
  foldl after_call c cs.

(** The sample that the call [cl] produces on the receiver [c]: the one of
    the pending operation, when [cl] is an [EndOp]. *)
Definition sample_of (c : StatsCollector) (cl : call) : option Latency :=
  match cl with
  | CallEndOp now =>
      match epoch c, lastOp c with
      | Some e, Some op => Some (mkLatency op (Sub now e))
      | _, _ => None
      end
  | _ => None
  end.

(** The world after the call [cl] on the collector [c] at [s]. *)
Definition world_after (w : World) (s : loc) (c : StatsCollector) (cl : call) : World :=
  match sample_of c cl with
  | Some x => emitted (upd w s (after_call c cl)) (latencyChan c) x
  | None => upd w s (after_call c cl)
  end.

(** The world after the calls [cs] on the collector [c] at [s]. *)
Fixpoint world_after_calls (w : World) (s : loc) (c : StatsCollector) (cs : list call)
  : World :=
  match cs with
  | [] => w
  | cl :: cs' => world_after_calls (world_after w s c cl) s (after_call c cl) cs'
  end.

Definition is_StartOp (cl : call) : bool :=
  match cl with
  | CallStartOp _ _ _ => true
  | _ => false
  end.

Definition is_StartOp_of (t : OpType) (cl : call) : bool :=
  match cl with
  | CallStartOp opType _ _ => bool_decide (opType = t)
  | _ => false
  end.

(** How many calls of [cs] satisfy [f]. *)
Fixpoint how_many (f : call → bool) (cs : list call) : nat :=
  match cs with
  | [] => 0
  | cl :: cs' => (if f cl then 1 else 0) + how_many f cs'
  end.

(** The call does not change the rate: it is no [SampleLatencies]. *)
Definition keeps_rate (cl : call) : bool :=
  match cl with
  | CallSampleLatencies _ _ => false
  | _ => true
  end.

(** An operation of a type, with the times at which it starts and ends
    and the random draw of its start. *)
Record timing : Type := mkTiming {
  timing_op : OpType;
  timing_start : Time;
  timing_end : Time;
  timing_draw : F;
}.

(** [s.StartOp(opType); ...; s.EndOp()] *)
Definition timed (s : loc) (x : timing) : M unit :=
  StartOp s (timing_op x) (timing_start x) (timing_draw x);;
  EndOp s (timing_end x).

Definition elapsed (x : timing) : Duration := Sub (timing_end x) (timing_start x).

(** The durations of the operations of type [t] among [xs]. *)
Definition elapsed_of (t : OpType) (xs : list timing) : list Duration :=
  elapsed <$> filter (λ x, timing_op x = t) xs.

(** The samples of the operations [xs], in their order. *)
Definition samples_of (xs : list timing) : list Latency :=
  (λ x, mkLatency (timing_op x) (elapsed x)) <$> xs.

End Collector.

(** * Concrete collectors

    Operation types as strings, a list of three of them, and the objects
    and worlds at which the properties below are evaluated. *)

#[export] Instance string_OpTypes : OpTypes string := {|
  AllOpTypes := ["insert"; "update"; "query"]%string;
|}.

(** A collector with nothing pending, sampling one operation in two and
    sending its samples on channel 7. *)
Definition ex_idle : StatsCollector (OpType := string) (F := float) := {|
  counts := {["insert"%string := 2]};
  durations := {["insert"%string := 3000000000]};
  total := 2;
  sampleRate := 0.5%float;
  epoch := None;
  lastOp := None;
  latencyChan := Some 7%positive;
|}.

(** The same collector while an ["insert"] started at time 100 is timed. *)
Definition ex_pending : StatsCollector (OpType := string) (F := float) :=
  set_lastOp (Some "insert"%string) (set_epoch (Some 100) ex_idle).

(** A world with one collector, at address 1, and nothing sent yet. *)
Definition ex_world {F : Type} (c : StatsCollector (OpType := string) (F := F))
  : World (OpType := string) (F := F) :=
  mkWorld {[1%positive := c]} ∅.

(** A world with two collectors. *)
Definition ex_world2 : World (OpType := string) (F := float) :=
  mkWorld (<[2%positive := ex_pending]> {[1%positive := ex_idle]}) ∅.

(** The world before anything is allocated. *)
Definition ex_empty : World (OpType := string) (F := float) := mkWorld ∅ ∅.

(** A collector in exact arithmetic: 4 inserts that took 2 seconds. *)
Definition ex_exact : StatsCollector (OpType := string) (F := Qc) := {|
  counts := {["insert"%string := 4]};
  durations := {["insert"%string := 2000000000]};
  total := 4;
  sampleRate := Qc_of_Z 1;
  epoch := None;
  lastOp := None;
  latencyChan := None;
|}.

(** * Properties *)

Section Properties.

Context {OpType : Type} `{Countable OpType} `{OpTypes OpType}.
Context {F : Type} `{Float64 F}.

Local Abbreviation M := (M (OpType := OpType) (F := F)).
Local Abbreviation World := (World (OpType := OpType) (F := F)).
Local Abbreviation StatsCollector := (StatsCollector (OpType := OpType) (F := F)).
Local Abbreviation Latency := (Latency (OpType := OpType)).
Local Abbreviation call := (call (OpType := OpType) (F := F)).

Implicit Types (w : World) (c n st : StatsCollector) (sts : list StatsCollector).
Implicit Types (cl : call) (cs : list call).
Implicit Types (t opType op : OpType) (rate draw : F).

(** ** Running the primitives *)

Lemma bind_run {A B} (m : M A) (k : A → M B) w :
  (m ≫= k) w = match m w with Ok (a, w') => k a w' | Panic => Panic end.
Proof. reflexivity. Qed.

Lemma ret_run {A} (a : A) w : mret (M := M) a w = Ok (a, w).
Proof. reflexivity. Qed.

Lemma load_run w p c : heap w !! p = Some c → load p w = Ok (c, w).
Proof. intros Hp. unfold load. by rewrite Hp. Qed.

Lemma store_run w p c c' : heap w !! p = Some c → store p c' w = Ok (tt, upd w p c').
Proof. intros Hp. unfold store. by rewrite Hp. Qed.

Lemma modify_run w p c f : heap w !! p = Some c → modify p f w = Ok (tt, upd w p (f c)).
Proof.
  intros Hp. unfold modify. rewrite bind_run, (load_run _ _ _ Hp).
  by apply store_run with c.
Qed.

Lemma send_run w ch x : send ch x w = Ok (tt, sent w ch x).
Proof. reflexivity. Qed.

Lemma heap_upd w p c : heap (upd w p c) !! p = Some c.
Proof. apply lookup_insert_eq. Qed.

Lemma heap_upd_ne w p q c : p ≠ q → heap (upd w p c) !! q = heap w !! q.
Proof. intros. by apply lookup_insert_ne. Qed.

Lemma upd_upd w p c c' : upd (upd w p c) p c' = upd w p c'.
Proof. unfold upd. simpl. by rewrite insert_insert_eq. Qed.

Lemma upd_id w p c : heap w !! p = Some c → upd w p c = w.
Proof. intros Hp. destruct w as [h ch]. unfold upd. simpl in *. by rewrite insert_id. Qed.

Lemma chans_upd w p c : chans (upd w p c) = chans w.
Proof. reflexivity. Qed.

Lemma heap_sent w ch x : heap (sent w ch x) = heap w.
Proof. reflexivity. Qed.

Lemma sent_upd w p c ch x : upd (sent w ch x) p c = sent (upd w p c) ch x.
Proof. reflexivity. Qed.

(** One statement of a method body, run on the current world. *)
Ltac run_step :=
  rewrite bind_run;
  first [ erewrite modify_run by eauto using heap_upd
        | erewrite load_run by eauto using heap_upd
        | rewrite send_run
        | rewrite ret_run ];
  cbv beta iota; rewrite ?upd_upd.

(** Projections of updated records. *)
Ltac fields :=
  cbn [counts durations total sampleRate epoch lastOp latencyChan
       set_counts set_durations set_total set_sampleRate set_epoch set_lastOp
       set_latencyChan] in *.

(** ** What each method does to its receiver *)

Lemma StartOp_run w s c opType now draw :
  heap w !! s = Some c →
  StartOp s opType now draw w = Ok (tt, upd w s (started c opType now draw)).
Proof.
  intros Hs. unfold StartOp, started, sampled.
  do 3 run_step. unfold counted. fields.
  destruct (feqb (sampleRate c) (float64_of_int 0)); [done|].
  destruct (feqb (sampleRate c) (float64_of_int 1) || fltb draw (sampleRate c)); [|done].
  run_step. erewrite modify_run by eauto using heap_upd. by rewrite upd_upd.
Qed.

Lemma EndOp_idle w s c now :
  heap w !! s = Some c → epoch c = None → EndOp s now w = Ok (tt, w).
Proof.
  intros Hs He. unfold EndOp. run_step. by rewrite He.
Qed.

Lemma EndOp_pending w s c e op now :
  heap w !! s = Some c → epoch c = Some e → lastOp c = Some op →
  EndOp s now w =
    Ok (tt, emitted (upd w s (closed c op (Sub now e))) (latencyChan c)
                    (mkLatency op (Sub now e))).
Proof.
  intros Hs He Hop. unfold EndOp, closed. run_step. rewrite He, Hop.
  simpl deref. do 3 run_step. fields.
  destruct (latencyChan c) as [ch|]; simpl emitted.
  - rewrite bind_run, send_run. cbv beta iota.
    rewrite bind_run. erewrite modify_run by (rewrite heap_sent; eauto using heap_upd).
    cbv beta iota. erewrite modify_run by (rewrite sent_upd, heap_sent; eauto using heap_upd).
    by rewrite !sent_upd, !upd_upd.
  - run_step. run_step. erewrite modify_run by eauto using heap_upd. by rewrite upd_upd.
Qed.

Lemma EndOp_nil_lastOp w s c e now :
  heap w !! s = Some c → epoch c = Some e → lastOp c = None → EndOp s now w = Panic.
Proof.
  intros Hs He Hop. unfold EndOp. run_step. by rewrite He, Hop.
Qed.

Lemma SampleLatencies_run w s c rate ch :
  heap w !! s = Some c →
  SampleLatencies s rate ch w = Ok (tt, upd w s (configured c rate ch)).
Proof.
  intros Hs. unfold SampleLatencies, configured. run_step.
  erewrite modify_run by eauto using heap_upd. by rewrite upd_upd.
Qed.

Lemma Count_run w s c opType :
  heap w !! s = Some c → Count s opType w = Ok (index (counts c) opType, w).
Proof. intros Hs. unfold Count. by run_step. Qed.

Lemma TotalTime_run w s c opType :
  heap w !! s = Some c → TotalTime s opType w = Ok (index (durations c) opType, w).
Proof. intros Hs. unfold TotalTime. by run_step. Qed.

(** ** Map indexing *)

Lemma index_insert (m : gmap OpType Z) k v t :
  index (<[k := v]> m) t = if decide (t = k) then v else index m t.
Proof.
  unfold index. case_decide as Ht.
  - subst. by rewrite lookup_insert_eq.
  - by rewrite lookup_insert_ne.
Qed.

Lemma index_empty t : index ∅ t = 0.
Proof. unfold index. by rewrite lookup_empty. Qed.

(** ** Machine arithmetic *)

Lemma wrap64_small z : is_int64 z → wrap64 z = z.
Proof.
  unfold is_int64, minInt64, maxInt64, wrap64. intros Hz.
  rewrite Z.mod_small; lia.
Qed.

Lemma wrap64_is_int64 z : is_int64 (wrap64 z).
Proof.
  unfold is_int64, minInt64, maxInt64, wrap64.
  pose proof (Z.mod_pos_bound (z + 2 ^ 63) (2 ^ 64)). lia.
Qed.

Lemma wrap64_add_l x y : wrap64 (wrap64 x + y) = wrap64 (x + y).
Proof.
  unfold wrap64. f_equal.
  replace (((x + 2 ^ 63) `mod` 2 ^ 64 - 2 ^ 63 + y + 2 ^ 63))
    with ((x + 2 ^ 63) `mod` 2 ^ 64 + y) by lia.
  rewrite Zplus_mod_idemp_l. f_equal. lia.
Qed.

Lemma wrap64_add_r x y : wrap64 (x + wrap64 y) = wrap64 (x + y).
Proof. rewrite (Z.add_comm x), wrap64_add_l. f_equal. lia. Qed.

Lemma int64_add_assoc x y z :
  int64_add (int64_add x y) z = wrap64 (x + y + z).
Proof. unfold int64_add. apply wrap64_add_l. Qed.

Lemma Sub_is_int64 (t u : Time) : is_int64 (Sub t u).
Proof.
  unfold Sub, is_int64, minInt64, maxInt64.
  destruct (Z.ltb_spec (2 ^ 63 - 1) (t - u)); [lia|].
  destruct (Z.ltb_spec (t - u) (- 2 ^ 63)); lia.
Qed.

Lemma Sub_exact (t u : Time) : is_int64 (t - u) → Sub t u = t - u.
Proof.
  unfold Sub, is_int64, minInt64, maxInt64. intros Hd.
  destruct (Z.ltb_spec (2 ^ 63 - 1) (t - u)); [lia|].
  destruct (Z.ltb_spec (t - u) (- 2 ^ 63)); lia.
Qed.

(** ** The sampling decision *)

Lemma sampled_false rate draw :
  sampled rate draw = false ↔
  feqb rate (float64_of_int 0) = true ∨
  (feqb rate (float64_of_int 1) = false ∧ fltb draw rate = false).
Proof.
  unfold sampled. destruct (feqb rate (float64_of_int 0)).
  - split; [by left | done].
  - rewrite orb_false_iff. split; [by right | by intros [?|?]].
Qed.

Lemma sampled_rate_1 draw : sampled (float64_of_int 1) draw = true.
Proof. unfold sampled. by rewrite feqb_1_0, feqb_1_1. Qed.

Lemma sampled_rate_0 draw : sampled (float64_of_int 0) draw = false.
Proof. unfold sampled. by rewrite feqb_0_0. Qed.

(** ** The constructor *)

Lemma NewStatsCollector_run w :
  NewStatsCollector w = Ok (fresh (dom (heap w)), upd w (fresh (dom (heap w))) new_collector).
Proof.
  unfold NewStatsCollector, new_collector. fold zeroed.
  by destruct zeroed as [cs ds].
Qed.

Lemma fresh_loc_unused w : heap w !! fresh (dom (heap w)) = None.
Proof. apply not_elem_of_dom, is_fresh. Qed.

Lemma zeroed_lookup t :
  zeroed.1 !! t = (if decide (t ∈ AllOpTypes) then Some 0 else None) ∧
  zeroed.2 !! t = (if decide (t ∈ AllOpTypes) then Some 0 else None).
Proof.
  unfold zeroed.
  cut (∀ l (cs ds : gmap OpType Z),
         let r := foldl (λ '(counts, durations) opType,
                           (<[opType := 0]> counts, <[opType := 0]> durations))
                        (cs, ds) l in
         r.1 !! t = (if decide (t ∈ l) then Some 0 else cs !! t) ∧
         r.2 !! t = (if decide (t ∈ l) then Some 0 else ds !! t)).
  { intros Hcut. pose proof (Hcut AllOpTypes ∅ ∅) as Hc. cbv zeta in Hc.
    by rewrite !lookup_empty in Hc. }
  induction l as [|k l IH]; intros cs ds; simpl.
  - done.
  - destruct (IH (<[k := 0]> cs) (<[k := 0]> ds)) as [IH1 IH2].
    rewrite IH1, IH2. clear IH IH1 IH2.
    destruct (decide (t ∈ l)) as [Hl|Hl].
    + rewrite !decide_True by (by apply elem_of_cons; right). done.
    + destruct (decide (t = k)) as [->|Hne].
      * rewrite !decide_True by (by apply elem_of_cons; left).
        by rewrite !lookup_insert_eq.
      * rewrite !decide_False by (by intros [?|?]%elem_of_cons).
        by rewrite !lookup_insert_ne.
Qed.

Lemma new_collector_index t :
  index (counts new_collector) t = 0 ∧ index (durations new_collector) t = 0.
Proof.
  destruct (zeroed_lookup t) as [Hc Hd].
  unfold index, new_collector. cbn [counts durations].
  rewrite Hc, Hd. by case_decide.
Qed.

(** ** The pending operation *)

Lemma started_sampled c opType now draw :
  sampled (sampleRate c) draw = true →
  epoch (started c opType now draw) = Some now ∧
  lastOp (started c opType now draw) = Some opType.
Proof. intros Hd. unfold started. by rewrite Hd. Qed.

Lemma started_unsampled c opType now draw :
  sampled (sampleRate c) draw = false →
  started c opType now draw = counted c opType.
Proof. intros Hd. unfold started. by rewrite Hd. Qed.

Lemma started_counts c opType now draw :
  counts (started c opType now draw) =
  <[opType := int64_add (index (counts c) opType) 1]> (counts c).
Proof. unfold started. by destruct (sampled _ _). Qed.

Lemma started_total c opType now draw :
  total (started c opType now draw) = int64_add (total c) 1.
Proof. unfold started. by destruct (sampled _ _). Qed.

Lemma started_durations c opType now draw :
  durations (started c opType now draw) = durations c.
Proof. unfold started. by destruct (sampled _ _). Qed.

Lemma started_sampleRate c opType now draw :
  sampleRate (started c opType now draw) = sampleRate c.
Proof. unfold started. by destruct (sampled _ _). Qed.

Lemma started_latencyChan c opType now draw :
  latencyChan (started c opType now draw) = latencyChan c.
Proof. unfold started. by destruct (sampled _ _). Qed.

Lemma chans_emitted_None w x : emitted w None x = w.
Proof. reflexivity. Qed.

Lemma heap_emitted w ch x : heap (emitted w ch x) = heap w.
Proof. by destruct ch. Qed.

(** C8: [EndOp] on a collector with no pending timed operation (its
    [epoch] is nil) returns without a panic and leaves the world as it was:
    counts, durations and total of every collector, and what was sent on
    every channel.  A [StartOp] that is not selected for sampling, called
    in such a state, keeps it so: the [EndOp] after it is a no-op too. *)
Theorem EndOp_no_pending_noop w s c now :
  heap w !! s = Some c →
  epoch c = None →
  EndOp s now w = Ok (tt, w) ∧
  ∀ opType now0 draw,
    sampled (sampleRate c) draw = false →
    ∃ w1, StartOp s opType now0 draw w = Ok (tt, w1) ∧ EndOp s now w1 = Ok (tt, w1).
Proof.
  intros Hs He. split; [by apply EndOp_idle with c|].
  intros opType now0 draw Hd.
  eexists. split; [by apply StartOp_run|].
  eapply EndOp_idle; [apply heap_upd|].
  by rewrite started_unsampled.
Qed.

(** C3: when a sampled operation [op], started at [e], is still pending,
    a [StartOp] that is not selected for sampling (the rate is 0, or the
    rate is not 1 and the draw is not below it) leaves that pending start
    in place.  The next [EndOp] is then no no-op: it adds the whole time
    elapsed since [e] to the durations of [op], sends the sample for [op]
    on the channel if one is installed, and clears the pending start. *)
Theorem unsampled_StartOp_keeps_pending w s c e op opType now draw now' :
  heap w !! s = Some c →
  epoch c = Some e →
  lastOp c = Some op →
  feqb (sampleRate c) (float64_of_int 0) = true ∨
  (feqb (sampleRate c) (float64_of_int 1) = false ∧ fltb draw (sampleRate c) = false) →
  ∃ w1 c1 w2 c2,
    StartOp s opType now draw w = Ok (tt, w1) ∧
    heap w1 !! s = Some c1 ∧
    epoch c1 = Some e ∧ lastOp c1 = Some op ∧
    EndOp s now' w1 = Ok (tt, w2) ∧
    heap w2 !! s = Some c2 ∧
    (∀ t, index (durations c2) t =
          if decide (t = op) then int64_add (index (durations c) t) (Sub now' e)
          else index (durations c) t) ∧
    chans w2 = match latencyChan c with
               | Some ch => <[ch := default [] (chans w !! ch) ++ [mkLatency op (Sub now' e)]]>
                              (chans w)
               | None => chans w
               end ∧
    epoch c2 = None ∧ lastOp c2 = None.
Proof.
  intros Hs He Hop Hd%sampled_false.
  eexists _, _, _, _.
  split; [by apply StartOp_run|].
  split; [apply heap_upd|].
  rewrite started_unsampled by done. unfold counted. fields.
  do 2 (split; [done|]).
  split.
  { eapply EndOp_pending; [apply heap_upd| |]; by fields. }
  fields. split.
  { rewrite heap_emitted. apply heap_upd. }
  unfold closed. fields.
  split; [|split; [|done]].
  - intros t. rewrite index_insert. by case_decide; subst.
  - by destruct (latencyChan c).
Qed.

(** C4: two sampled calls [StartOp t1] and [StartOp t2] with no [EndOp]
    between them, then one [EndOp].  The second call overwrites the pending
    start of the first, so there is one pending operation at each moment;
    [EndOp] adds the time since the second start to the durations of [t2]
    only, the time of the first start is used nowhere, and the counts of
    [t1] and of [t2] were each incremented by their own [StartOp]. *)
Theorem overlapping_StartOp_times_second_only w s c t1 t2 now1 draw1 now2 draw2 now3 :
  heap w !! s = Some c →
  sampled (sampleRate c) draw1 = true →
  sampled (sampleRate c) draw2 = true →
  ∃ w1 c1 w2 c2 w3 c3,
    StartOp s t1 now1 draw1 w = Ok (tt, w1) ∧ heap w1 !! s = Some c1 ∧
    epoch c1 = Some now1 ∧ lastOp c1 = Some t1 ∧
    StartOp s t2 now2 draw2 w1 = Ok (tt, w2) ∧ heap w2 !! s = Some c2 ∧
    epoch c2 = Some now2 ∧ lastOp c2 = Some t2 ∧
    EndOp s now3 w2 = Ok (tt, w3) ∧ heap w3 !! s = Some c3 ∧
    epoch c3 = None ∧ lastOp c3 = None ∧
    (∀ t, index (durations c3) t =
          if decide (t = t2) then int64_add (index (durations c) t) (Sub now3 now2)
          else index (durations c) t) ∧
    (∀ t, index (counts c3) t =
          let n1 := if decide (t = t1) then int64_add (index (counts c) t) 1
                    else index (counts c) t in
          if decide (t = t2) then int64_add n1 1 else n1) ∧
    chans w3 = match latencyChan c with
               | Some ch => <[ch := default [] (chans w !! ch) ++ [mkLatency t2 (Sub now3 now2)]]>
                              (chans w)
               | None => chans w
               end.
Proof.
  intros Hs Hd1 Hd2.
  pose proof (started_sampled c t1 now1 draw1 Hd1) as [He1 Hop1].
  set (c1 := started c t1 now1 draw1) in *.
  assert (sampled (sampleRate c1) draw2 = true) as Hd2'.
  { subst c1. by rewrite started_sampleRate. }
  pose proof (started_sampled c1 t2 now2 draw2 Hd2') as [He2 Hop2].
  set (c2 := started c1 t2 now2 draw2) in *.
  exists (upd w s c1), c1, (upd w s c2), c2.
  eexists _, _.
  split; [by apply StartOp_run|].
  split; [apply heap_upd|].
  do 2 (split; [done|]).
  split.
  { subst c2. erewrite StartOp_run by apply heap_upd. by rewrite upd_upd. }
  split; [apply heap_upd|].
  do 2 (split; [done|]).
  split.
  { eapply EndOp_pending; [apply heap_upd|done|done]. }
  split.
  { rewrite heap_emitted. apply heap_upd. }
  unfold closed. fields.
  do 2 (split; [done|]).
  assert (durations c2 = durations c) as Hdur.
  { subst c2 c1. by rewrite !started_durations. }
  assert (latencyChan c2 = latencyChan c) as Hch.
  { subst c2 c1. by rewrite !started_latencyChan. }
  rewrite Hdur, Hch.
  split; [|split].
  - intros t. rewrite index_insert. by case_decide; subst.
  - intros t. subst c2 c1. rewrite !started_counts, !index_insert.
    cbv zeta. by repeat case_decide; subst.
  - by destruct (latencyChan c).
Qed.

(** C2, as the code has it: [SampleLatencies] sets the rate and the
    channel of the collector and touches nothing else, so an operation that
    is pending stays pending.  The new rate does not reach that operation:
    the [EndOp] after the call records its duration whatever the rate is,
    and the rate decides only whether a later [StartOp] starts the timer.
    The new channel does reach it: that [EndOp] sends the sample of the
    pending operation on the channel just installed, and sends nothing when
    nil was installed; the channel installed before receives nothing. *)
Theorem SampleLatencies_rate_later_channel_now w s c e op rate ch now :
  heap w !! s = Some c →
  epoch c = Some e →
  lastOp c = Some op →
  ∃ w1 c1 w2 c2,
    SampleLatencies s rate ch w = Ok (tt, w1) ∧ heap w1 !! s = Some c1 ∧
    sampleRate c1 = rate ∧ latencyChan c1 = ch ∧
    epoch c1 = Some e ∧ lastOp c1 = Some op ∧
    counts c1 = counts c ∧ durations c1 = durations c ∧ total c1 = total c ∧
    chans w1 = chans w ∧
    EndOp s now w1 = Ok (tt, w2) ∧ heap w2 !! s = Some c2 ∧
    (∀ t, index (durations c2) t =
          if decide (t = op) then int64_add (index (durations c) t) (Sub now e)
          else index (durations c) t) ∧
    chans w2 = match ch with
               | Some ch' => <[ch' := default [] (chans w !! ch') ++ [mkLatency op (Sub now e)]]>
                               (chans w)
               | None => chans w
               end ∧
    ∀ opType now' draw,
      ∃ w3 c3,
        StartOp s opType now' draw w2 = Ok (tt, w3) ∧ heap w3 !! s = Some c3 ∧
        epoch c3 = if sampled rate draw then Some now' else None.
Proof.
  intros Hs He Hop.
  eexists _, _, _, _.
  split; [by apply SampleLatencies_run|].
  split; [apply heap_upd|].
  unfold configured. fields.
  do 8 (split; [done|]).
  split.
  { eapply EndOp_pending; [apply heap_upd| |]; by fields. }
  fields. split.
  { rewrite heap_emitted. apply heap_upd. }
  unfold closed. fields.
  split; [|split].
  - intros t. rewrite index_insert. by case_decide; subst.
  - by destruct ch.
  - intros opType now' draw. eexists _, _.
    split.
    { eapply StartOp_run. rewrite heap_emitted. apply heap_upd. }
    split; [apply heap_upd|].
    unfold started. fields. by destruct (sampled rate draw).
Qed.

(** ** The derived metrics *)

Lemma OpsSec_run w s c opType :
  heap w !! s = Some c →
  OpsSec s opType w =
    Ok (if index (durations c) opType =? 0 then float64_of_int 0
        else fdiv (fmul (float64_of_int (index (counts c) opType)) (float64_of_int Second))
                  (float64_of_int (index (durations c) opType)), w).
Proof.
  intros Hs. unfold OpsSec, Nanoseconds.
  rewrite bind_run, (TotalTime_run _ _ _ _ Hs). cbv beta iota.
  destruct (index (durations c) opType =? 0); [done|].
  by run_step.
Qed.

Lemma LatencyInMs_run w s c opType :
  heap w !! s = Some c →
  LatencyInMs s opType w =
    Ok (if feqb (float64_of_int (index (counts c) opType)) (float64_of_int 0)
        then float64_of_int 0
        else fmul (fdiv (Seconds (index (durations c) opType))
                        (float64_of_int (index (counts c) opType)))
                  (float64_of_int 1000), w).
Proof.
  intros Hs. unfold LatencyInMs. run_step.
  destruct (feqb _ _); [done|].
  by rewrite bind_run, (TotalTime_run _ _ _ _ Hs).
Qed.

(** C10: on the null collector, any sequence of calls of the six methods
    of the interface, of any length and in any order, runs to its end
    without a panic, leaves the world as it was, and returns zero from
    every [Count], [OpsSec] and [LatencyInMs]. *)
Theorem nullStatsCollector_does_nothing (e : nullStatsCollector) (cs : list call) (w : World) :
  perform_all e cs w = Ok (zero_value <$> cs, w).
Proof.
  induction cs as [|c cs IH]; [done|].
  cbn [perform_all fmap list_fmap]. rewrite bind_run.
  assert (perform e c w = Ok (zero_value c, w)) as -> by by destruct c.
  cbv beta iota. rewrite bind_run, IH. done.
Qed.

(** ** Sequences of calls on a collector *)

Lemma new_collector_pending_ok : pending_ok new_collector.
Proof. by intros [? ?]. Qed.

Lemma started_pending_ok c opType now draw :
  pending_ok c → pending_ok (started c opType now draw).
Proof.
  unfold pending_ok, started, counted. intros Hc.
  destruct (sampled _ _); fields; eauto.
Qed.

(** A call on a collector whose pending pointers are in order returns,
    changes no other object of the heap, keeps the pointers in order, and
    changes the count of [t] only when it is a [StartOp] of [t]. *)
Lemma perform_StatsCollector w s c cl :
  heap w !! s = Some c →
  pending_ok c →
  ∃ v c' w',
    perform s cl w = Ok (v, w') ∧
    heap w' = <[s := c']> (heap w) ∧
    pending_ok c' ∧
    ∀ t, (∀ now draw, cl ≠ CallStartOp t now draw) →
         index (counts c') t = index (counts c) t.
Proof.
  intros Hs Hok. destruct cl as [opType now draw|now|opType|opType|opType|rate ch];
    cbn [perform iStartOp iEndOp iCount iOpsSec iLatencyInMs iSampleLatencies
         StatsCollector_methods]; rewrite bind_run.
  - rewrite (StartOp_run _ _ _ _ _ _ Hs). eexists _, _, _. split; [done|].
    split; [done|]. split; [by apply started_pending_ok|].
    intros t Ht. rewrite started_counts, index_insert.
    case_decide; [|done]. subst. by destruct (Ht now draw).
  - destruct (epoch c) as [e|] eqn:He.
    + destruct (Hok (ltac:(by rewrite He))) as [op Hop]. 
      rewrite (EndOp_pending _ _ _ _ _ _ Hs He Hop).
      eexists _, _, _. split; [done|].
      split; [by rewrite heap_emitted|].
      split; [by intros [? ?]|done].
    + rewrite (EndOp_idle _ _ _ _ Hs He).
      exists VUnit, c, w. rewrite insert_id by done. done.
  - rewrite (Count_run _ _ _ _ Hs).
    eexists _, c, w. rewrite insert_id by done. done.
  - rewrite (OpsSec_run _ _ _ _ Hs).
    eexists _, c, w. rewrite insert_id by done. done.
  - rewrite (LatencyInMs_run _ _ _ _ Hs).
    eexists _, c, w. rewrite insert_id by done. done.
  - rewrite (SampleLatencies_run _ _ _ _ _ Hs).
    eexists _, _, _. split; [done|]. split; [done|]. done.
Qed.

Lemma perform_all_StatsCollector cs : ∀ w s c,
  heap w !! s = Some c →
  pending_ok c →
  ∃ vs c' w',
    perform_all s cs w = Ok (vs, w') ∧
    heap w' = <[s := c']> (heap w) ∧
    pending_ok c' ∧
    ∀ t, (∀ now draw, CallStartOp t now draw ∉ cs) →
         index (counts c') t = index (counts c) t.
Proof.
  induction cs as [|cl cs IH]; intros w s c Hs Hok.
  - exists [], c, w. rewrite insert_id by done. done.
  - destruct (perform_StatsCollector w s c cl Hs Hok) as (v & c1 & w1 & Hrun & Hh1 & Hok1 & Hc1).
    assert (heap w1 !! s = Some c1) as Hs1 by (rewrite Hh1; apply lookup_insert_eq).
    destruct (IH w1 s c1 Hs1 Hok1) as (vs & c2 & w2 & Hrun2 & Hh2 & Hok2 & Hc2).
    exists (v :: vs), c2, w2. cbn [perform_all].
    rewrite bind_run, Hrun. cbv beta iota. rewrite bind_run, Hrun2.
    split; [done|]. split; [by rewrite Hh2, Hh1, insert_insert_eq|].
    split; [done|].
    intros t Ht. rewrite Hc2, Hc1; [done| |].
    + intros now draw ->. apply (Ht now draw), elem_of_cons. by left.
    + intros now draw Hin. apply (Ht now draw), elem_of_cons. by right.
Qed.

(** [n] increments of an [int64]. *)
Lemma incremented_small (n : nat) (x : Z) :
  is_int64 x → x + Z.of_nat n ≤ maxInt64 →
  Nat.iter n (λ y, int64_add y 1) x = x + Z.of_nat n.
Proof.
  unfold is_int64, minInt64, maxInt64.
  induction n as [|n IH]; intros Hx Hn.
  - simpl. lia.
  - rewrite Nat.iter_succ, IH by lia. unfold int64_add.
    rewrite wrap64_small; [lia|]. unfold is_int64, minInt64, maxInt64. lia.
Qed.

(** [StartOp] of [t], once per element of [args]. *)
Lemma StartOps_run t (args : list (Time * F)) : ∀ w s c,
  heap w !! s = Some c →
  ∃ c',
    range args (λ a, StartOp s t a.1 a.2) w = Ok (tt, upd w s c') ∧
    index (counts c') t =
      Nat.iter (length args) (λ y, int64_add y 1) (index (counts c) t).
Proof.
  induction args as [|[now draw] args IH]; intros w s c Hs.
  - exists c. simpl. by rewrite ret_run, upd_id.
  - cbn [range length]. rewrite bind_run.
    rewrite (StartOp_run _ _ _ _ _ _ Hs). cbv beta iota. cbn [fst snd].
    destruct (IH (upd w s (started c t now draw)) s _ (heap_upd _ _ _)) as (c' & Hrun & Hc').
    exists c'. rewrite Hrun, upd_upd. split; [done|].
    rewrite Hc', started_counts, index_insert, decide_True by done.
    by rewrite Nat.iter_succ_r.
Qed.

(** C5: on a new collector, after any calls among which [StartOp] was
    never called for [t] (calls of [SampleLatencies] with any rate, 0
    too, and any channel; [StartOp] of other types; [EndOp]; queries),
    [N] calls of [StartOp] for [t] with no [EndOp] between them make
    [Count] of [t] return [N], whatever the times and the random draws.
    With [N = 0]: [Count] returns 0 for a type never passed to [StartOp].
    [N] is an [int64], as the result of [Count] is. *)
Theorem Count_is_number_of_StartOps w t (cs : list call) (args : list (Time * F)) :
  (∀ now draw, CallStartOp t now draw ∉ cs) →
  Z.of_nat (length args) ≤ maxInt64 →
  ∃ w',
    (s ← NewStatsCollector;
     perform_all s cs;;
     range args (λ a, StartOp s t a.1 a.2);;
     Count s t) w = Ok (Z.of_nat (length args), w').
Proof.
  intros Hcs Hn.
  rewrite bind_run, NewStatsCollector_run. cbv beta iota.
  set (s := fresh (dom (heap w))). set (w0 := upd w s new_collector).
  destruct (perform_all_StatsCollector cs w0 s new_collector (heap_upd _ _ _)
              new_collector_pending_ok) as (vs & c1 & w1 & Hrun1 & Hh1 & _ & Hc1).
  rewrite bind_run, Hrun1. cbv beta iota.
  assert (heap w1 !! s = Some c1) as Hs1 by (rewrite Hh1; apply lookup_insert_eq).
  destruct (StartOps_run t args w1 s c1 Hs1) as (c2 & Hrun2 & Hc2).
  rewrite bind_run, Hrun2. cbv beta iota.
  rewrite (Count_run _ _ c2) by apply heap_upd.
  eexists. do 2 f_equal.
  rewrite Hc2, (Hc1 t Hcs).
  destruct (new_collector_index t) as [-> _].
  rewrite incremented_small; [lia| |lia].
  unfold is_int64, minInt64, maxInt64. lia.
Qed.

(** ** Combining collectors *)

Lemma CombineStats_unfold statsList :
  CombineStats statsList =
    (newStats ← NewStatsCollector;
     range AllOpTypes (λ opType, range statsList (combine_body newStats opType));;
     mret newStats).
Proof. reflexivity. Qed.

Lemma point_to_upd w q c ps sts : point_to w q ps sts → point_to (upd w q c) q ps sts.
Proof.
  unfold point_to. apply Forall2_impl. intros p st [Hp Hne].
  by rewrite heap_upd_ne.
Qed.

Lemma combine_body_run w newStats opType stats n st :
  heap w !! newStats = Some n →
  heap w !! stats = Some st →
  stats ≠ newStats →
  combine_body newStats opType stats w = Ok (tt, upd w newStats (added opType n st)).
Proof.
  intros Hn Hst Hne. unfold combine_body, added.
  run_step. run_step.
  rewrite bind_run, (load_run _ _ st) by by rewrite heap_upd_ne.
  cbv beta iota. run_step.
  rewrite bind_run, (load_run _ _ st) by by rewrite heap_upd_ne.
  cbv beta iota. erewrite modify_run by apply heap_upd.
  rewrite upd_upd. by fields.
Qed.

Lemma combine_inner_run newStats opType ps : ∀ sts w n,
  heap w !! newStats = Some n →
  point_to w newStats ps sts →
  range ps (combine_body newStats opType) w =
    Ok (tt, upd w newStats (added_all opType n sts)).
Proof.
  induction ps as [|p ps IH]; intros sts w n Hn Hps.
  - apply Forall2_nil_inv_l in Hps as ->. cbn [range]. by rewrite ret_run, upd_id.
  - apply Forall2_cons_inv_l in Hps as (st & sts' & [Hp Hne] & Hps & ->).
    cbn [range]. rewrite bind_run.
    rewrite (combine_body_run _ _ _ _ n st) by done. cbv beta iota.
    rewrite (IH sts' _ (added opType n st)); [|apply heap_upd|by apply point_to_upd].
    by rewrite upd_upd.
Qed.

Lemma combine_outer_run newStats ps sts l : ∀ w n,
  heap w !! newStats = Some n →
  point_to w newStats ps sts →
  range l (λ opType, range ps (combine_body newStats opType)) w =
    Ok (tt, upd w newStats (combined_over l n sts)).
Proof.
  induction l as [|opType l IH]; intros w n Hn Hps.
  - cbn [range]. by rewrite ret_run, upd_id.
  - cbn [range]. rewrite bind_run.
    rewrite (combine_inner_run _ _ _ sts w n) by done. cbv beta iota.
    rewrite (IH _ (added_all opType n sts)); [|apply heap_upd|by apply point_to_upd].
    by rewrite upd_upd.
Qed.

(** [CombineStats] on pointers to the objects [sts]. *)
Lemma CombineStats_run w ps sts :
  Forall2 (λ p st, heap w !! p = Some st) ps sts →
  CombineStats ps w =
    Ok (fresh (dom (heap w)),
        upd w (fresh (dom (heap w))) (combined_over AllOpTypes new_collector sts)).
Proof.
  intros Hps. rewrite CombineStats_unfold, bind_run, NewStatsCollector_run.
  cbv beta iota. rewrite bind_run.
  rewrite (combine_outer_run _ ps sts _ _ new_collector).
  - cbv beta iota. by rewrite ret_run, upd_upd.
  - apply heap_upd.
  - apply point_to_upd. unfold point_to.
    eapply Forall2_impl; [|exact Hps]. intros p st Hp. split; [done|].
    intros ->. by rewrite fresh_loc_unused in Hp.
Qed.

(** The inputs of [CombineStats] as objects, when none is nil. *)
Lemma pointers_objects w ps :
  Forall (λ p, is_Some (heap w !! p)) ps →
  ∃ sts, Forall2 (λ p st, heap w !! p = Some st) ps sts.
Proof.
  induction 1 as [|p ps [st Hp] _ [sts IH]].
  - by exists [].
  - exists (st :: sts). by constructor.
Qed.

(** The loops write the counters only. *)
Lemma added_all_config opType sts : ∀ n,
  sampleRate (added_all opType n sts) = sampleRate n ∧
  latencyChan (added_all opType n sts) = latencyChan n ∧
  epoch (added_all opType n sts) = epoch n ∧
  lastOp (added_all opType n sts) = lastOp n.
Proof.
  unfold added_all. induction sts as [|st sts IH]; intros n; [done|].
  cbn [foldl]. destruct (IH (added opType n st)) as (-> & -> & -> & ->). done.
Qed.

Lemma combined_over_config l sts : ∀ n,
  sampleRate (combined_over l n sts) = sampleRate n ∧
  latencyChan (combined_over l n sts) = latencyChan n ∧
  epoch (combined_over l n sts) = epoch n ∧
  lastOp (combined_over l n sts) = lastOp n.
Proof.
  unfold combined_over. induction l as [|opType l IH]; intros n; [done|].
  cbn [foldl]. destruct (IH (added_all opType n sts)) as (-> & -> & -> & ->).
  apply added_all_config.
Qed.

(** C9: [CombineStats], called on pointers of which none is nil, returns
    a pointer to a new object and changes nothing that existed before the
    call: every object of the heap, the inputs among them, has the fields
    it had (counts, durations, total, rate, channel, pending start), and
    nothing is sent on a channel.  The new object has the sampling
    configuration that [NewStatsCollector] gives: rate 1, no channel, no
    pending start. *)
Theorem CombineStats_leaves_inputs w ps :
  Forall (λ p, is_Some (heap w !! p)) ps →
  ∃ newStats c w',
    CombineStats ps w = Ok (newStats, w') ∧
    heap w !! newStats = None ∧
    (∀ q st, heap w !! q = Some st → heap w' !! q = Some st) ∧
    (∀ q, q ≠ newStats → heap w' !! q = heap w !! q) ∧
    chans w' = chans w ∧
    heap w' !! newStats = Some c ∧
    sampleRate c = float64_of_int 1 ∧
    latencyChan c = None ∧
    epoch c = None ∧
    lastOp c = None ∧
    ∃ c0 w0,
      NewStatsCollector w = Ok (newStats, w0) ∧
      heap w0 !! newStats = Some c0 ∧
      sampleRate c = sampleRate c0 ∧
      latencyChan c = latencyChan c0.
Proof.
  intros Hps. destruct (pointers_objects w ps Hps) as [sts Hsts].
  eexists _, _, _. split; [by apply CombineStats_run|].
  split; [apply fresh_loc_unused|].
  split.
  { intros q st Hq. rewrite heap_upd_ne; [done|].
    intros Heq. rewrite <- Heq, fresh_loc_unused in Hq. done. }
  split; [intros q Hq; by apply heap_upd_ne|].
  split; [done|].
  split; [apply heap_upd|].
  destruct (combined_over_config AllOpTypes sts new_collector) as (-> & -> & -> & ->).
  do 4 (split; [done|]).
  eexists _, _. split; [apply NewStatsCollector_run|].
  split; [apply heap_upd|done].
Qed.

(** ** What the combined collector holds *)

Lemma foldl_int64_add l : ∀ x,
  is_int64 x → foldl int64_add x l = wrap64 (x + sumZ l).
Proof.
  induction l as [|a l IH]; intros x Hx; cbn [foldl sumZ foldr].
  - by rewrite Z.add_0_r, wrap64_small.
  - rewrite IH by apply wrap64_is_int64. unfold int64_add.
    fold (sumZ l). rewrite wrap64_add_l. f_equal. lia.
Qed.

Lemma foldl_int64_add_is_int64 l x : is_int64 x → is_int64 (foldl int64_add x l).
Proof. intros Hx. rewrite foldl_int64_add by done. apply wrap64_is_int64. Qed.

Lemma added_all_fields opType sts : ∀ n,
  total (added_all opType n sts) = foldl int64_add (total n) (total <$> sts) ∧
  (∀ t, index (counts (added_all opType n sts)) t =
        if decide (t = opType)
        then foldl int64_add (index (counts n) t) ((λ st, index (counts st) t) <$> sts)
        else index (counts n) t) ∧
  (∀ t, index (durations (added_all opType n sts)) t =
        if decide (t = opType)
        then foldl int64_add (index (durations n) t) ((λ st, index (durations st) t) <$> sts)
        else index (durations n) t).
Proof.
  unfold added_all. induction sts as [|st sts IH]; intros n.
  - cbn [foldl fmap list_fmap]. split; [done|]. split; intros t; by case_decide.
  - cbn [foldl fmap list_fmap]. destruct (IH (added opType n st)) as (-> & Hc & Hd).
    split; [done|]. split; intros t.
    + rewrite Hc. unfold added. fields. rewrite index_insert.
      case_decide; [by subst|done].
    + rewrite Hd. unfold added. fields. rewrite index_insert.
      case_decide; [by subst|done].
Qed.

Lemma new_collector_counters_int64 : counters_int64 new_collector.
Proof.
  split; [done|]. intros t. by destruct (new_collector_index t) as [-> ->].
Qed.

Lemma added_all_counters_int64 opType sts n :
  counters_int64 n → counters_int64 (added_all opType n sts).
Proof.
  intros [Ht Hcd]. destruct (added_all_fields opType sts n) as (Htot & Hc & Hd).
  split.
  - rewrite Htot. by apply foldl_int64_add_is_int64.
  - intros t. rewrite Hc, Hd.
    case_decide; [|done]. split; apply foldl_int64_add_is_int64, Hcd.
Qed.

Lemma combined_over_fields sts l : ∀ n,
  counters_int64 n →
  NoDup l →
  counters_int64 (combined_over l n sts) ∧
  total (combined_over l n sts) =
    wrap64 (total n + Z.of_nat (length l) * sumZ (total <$> sts)) ∧
  (∀ t, index (counts (combined_over l n sts)) t =
        if decide (t ∈ l)
        then wrap64 (index (counts n) t + sumZ ((λ st, index (counts st) t) <$> sts))
        else index (counts n) t) ∧
  (∀ t, index (durations (combined_over l n sts)) t =
        if decide (t ∈ l)
        then wrap64 (index (durations n) t + sumZ ((λ st, index (durations st) t) <$> sts))
        else index (durations n) t).
Proof.
  unfold combined_over. induction l as [|opType l IH]; intros n Hn Hl.
  - cbn [foldl length]. split; [done|]. split.
    { destruct Hn as [Ht _]. rewrite wrap64_small; [lia|]. by rewrite Z.add_0_r. }
    split; intros t; by rewrite decide_False by apply not_elem_of_nil.
  - apply list.NoDup_cons in Hl as [Hnotin Hl].
    pose proof (added_all_counters_int64 opType sts n Hn) as Hn1.
    destruct (added_all_fields opType sts n) as (Htot & Hc & Hd).
    cbn [foldl]. destruct (IH _ Hn1 Hl) as (Hn2 & -> & Hc2 & Hd2).
    destruct Hn as [Ht Hcd].
    split; [done|]. split.
    { rewrite Htot, foldl_int64_add by done. rewrite wrap64_add_l.
      f_equal. cbn [length]. lia. }
    split; intros t.
    + rewrite Hc2, Hc. destruct (decide (t = opType)) as [->|Hne].
      * rewrite decide_False by done. rewrite decide_True by (apply elem_of_cons; by left).
        apply foldl_int64_add, Hcd.
      * destruct (decide (t ∈ l)) as [Hin|Hin].
        -- by rewrite decide_True by (apply elem_of_cons; by right).
        -- by rewrite decide_False by (by intros [?|?]%elem_of_cons).
    + rewrite Hd2, Hd. destruct (decide (t = opType)) as [->|Hne].
      * rewrite decide_False by done. rewrite decide_True by (apply elem_of_cons; by left).
        apply foldl_int64_add, Hcd.
      * destruct (decide (t ∈ l)) as [Hin|Hin].
        -- by rewrite decide_True by (apply elem_of_cons; by right).
        -- by rewrite decide_False by (by intros [?|?]%elem_of_cons).
Qed.

(** What [CombineStats] computes from the objects [sts] its arguments
    point to, when [AllOpTypes] lists each type once: for each listed type
    the counts and durations are the sums over [sts]; [total] is the sum of
    the totals taken once for each listed type. *)
Lemma CombineStats_sums w ps sts :
  NoDup AllOpTypes →
  Forall2 (λ p st, heap w !! p = Some st) ps sts →
  ∃ newStats c w',
    CombineStats ps w = Ok (newStats, w') ∧
    heap w' !! newStats = Some c ∧
    (∀ t, t ∈ AllOpTypes →
          index (counts c) t = wrap64 (sumZ ((λ st, index (counts st) t) <$> sts)) ∧
          index (durations c) t = wrap64 (sumZ ((λ st, index (durations st) t) <$> sts))) ∧
    total c = wrap64 (Z.of_nat (length AllOpTypes) * sumZ (total <$> sts)).
Proof.
  intros Hnd Hps. eexists _, _, _.
  split; [by apply CombineStats_run|]. split; [apply heap_upd|].
  destruct (combined_over_fields sts AllOpTypes new_collector
              new_collector_counters_int64 Hnd) as (_ & -> & Hc & Hd).
  split; [|done].
  intros t Ht. rewrite Hc, Hd, !decide_True by done.
  by destruct (new_collector_index t) as [-> ->].
Qed.

(** With no argument, [CombineStats] is [NewStatsCollector]. *)
Lemma CombineStats_nil w : CombineStats [] w = NewStatsCollector w.
Proof.
  rewrite (CombineStats_run w [] []) by constructor.
  rewrite NewStatsCollector_run. do 3 f_equal.
  unfold combined_over. generalize new_collector.
  induction AllOpTypes as [|opType l IH]; intros n; [done|].
  cbn [foldl]. apply IH.
Qed.

(** ** Sequences of calls, call by call *)

Local Abbreviation timing := (timing (OpType := OpType) (F := F)).
Implicit Types (xs : list timing).

Lemma perform_run w s c cl :
  heap w !! s = Some c →
  pending_ok c →
  ∃ v, perform s cl w = Ok (v, world_after w s c cl).
Proof.
  intros Hs Hok. unfold world_after.
  destruct cl as [opType now draw|now|opType|opType|opType|rate ch];
    cbn [perform iStartOp iEndOp iCount iOpsSec iLatencyInMs iSampleLatencies
         StatsCollector_methods sample_of after_call]; rewrite bind_run.
  - rewrite (StartOp_run _ _ _ _ _ _ Hs). by eexists.
  - destruct (epoch c) as [e|] eqn:He.
    + destruct (Hok (ltac:(by rewrite He))) as [op Hop]. rewrite Hop.
      rewrite (EndOp_pending _ _ _ _ _ _ Hs He Hop). by eexists.
    + rewrite (EndOp_idle _ _ _ _ Hs He), upd_id by done. by eexists.
  - rewrite (Count_run _ _ _ _ Hs), upd_id by done. by eexists.
  - rewrite (OpsSec_run _ _ _ _ Hs), upd_id by done. by eexists.
  - rewrite (LatencyInMs_run _ _ _ _ Hs), upd_id by done. by eexists.
  - rewrite (SampleLatencies_run _ _ _ _ _ Hs). by eexists.
Qed.

Lemma after_call_pending_ok c cl : pending_ok c → pending_ok (after_call c cl).
Proof.
  intros Hok. destruct cl as [opType now draw|now| | | |rate ch]; cbn [after_call]; try done.
  - by apply started_pending_ok.
  - destruct (epoch c) as [e|] eqn:He; [|done].
    destruct (lastOp c) as [op|] eqn:Hop; [|done].
    by intros [? ?].
Qed.

Lemma after_calls_pending_ok cs : ∀ c, pending_ok c → pending_ok (after_calls c cs).
Proof.
  unfold after_calls. induction cs as [|cl cs IH]; intros c Hok; [done|].
  cbn [foldl]. by apply IH, after_call_pending_ok.
Qed.

Lemma heap_world_after w s c cl :
  heap (world_after w s c cl) = <[s := after_call c cl]> (heap w).
Proof.
  unfold world_after. destruct (sample_of c cl); [|done].
  by rewrite heap_emitted.
Qed.

Lemma heap_world_after_calls cs : ∀ w s c,
  heap w !! s = Some c →
  heap (world_after_calls w s c cs) = <[s := after_calls c cs]> (heap w).
Proof.
  induction cs as [|cl cs IH]; intros w s c Hs; cbn [world_after_calls].
  - unfold after_calls. cbn [foldl]. by rewrite insert_id.
  - rewrite IH by (rewrite heap_world_after; apply lookup_insert_eq).
    by rewrite heap_world_after, insert_insert_eq.
Qed.

Lemma perform_all_run cs : ∀ w s c,
  heap w !! s = Some c →
  pending_ok c →
  ∃ vs, perform_all s cs w = Ok (vs, world_after_calls w s c cs) ∧ length vs = length cs.
Proof.
  induction cs as [|cl cs IH]; intros w s c Hs Hok; cbn [perform_all world_after_calls].
  - by exists [].
  - destruct (perform_run w s c cl Hs Hok) as [v Hv].
    destruct (IH (world_after w s c cl) s (after_call c cl)) as (vs & Hvs & Hlen).
    { rewrite heap_world_after. apply lookup_insert_eq. }
    { by apply after_call_pending_ok. }
    exists (v :: vs). rewrite bind_run, Hv. cbv beta iota.
    rewrite bind_run, Hvs. cbn [length]. by rewrite Hlen.
Qed.

(** ** A new collector, and any calls on it *)

(** X1: the collector that [NewStatsCollector] returns is a new object;
    the objects that existed and the channels are as they were.  It reads
    zero for every operation type, a type missing from [AllOpTypes]
    included: [Count] and [TotalTime] return 0, [OpsSec] and [LatencyInMs]
    return 0. *)
Theorem NewStatsCollector_reads_zero w t :
  ∃ s w',
    NewStatsCollector w = Ok (s, w') ∧
    heap w !! s = None ∧
    (∀ q c, heap w !! q = Some c → heap w' !! q = Some c) ∧
    chans w' = chans w ∧
    Count s t w' = Ok (0, w') ∧
    TotalTime s t w' = Ok (0, w') ∧
    OpsSec s t w' = Ok (float64_of_int 0, w') ∧
    LatencyInMs s t w' = Ok (float64_of_int 0, w').
Proof.
  eexists _, _. split; [apply NewStatsCollector_run|].
  split; [apply fresh_loc_unused|].
  split.
  { intros q c Hq. rewrite heap_upd_ne; [done|].
    intros Heq. rewrite <- Heq, fresh_loc_unused in Hq. done. }
  split; [done|].
  destruct (new_collector_index t) as [Hc Hd].
  split; [by rewrite (Count_run _ _ new_collector), Hc by apply heap_upd|].
  split; [by rewrite (TotalTime_run _ _ new_collector), Hd by apply heap_upd|].
  split.
  - by rewrite (OpsSec_run _ _ new_collector), Hd by apply heap_upd.
  - by rewrite (LatencyInMs_run _ _ new_collector), Hc, feqb_0_0 by apply heap_upd.
Qed.



(** The calls [cs] on a new collector. *)
Lemma calls_on_new_collector_run w cs :
  ∃ vs,
    (s ← NewStatsCollector; vs ← perform_all s cs; mret (s, vs)) w =
      Ok ((fresh (dom (heap w)), vs),
          world_after_calls (upd w (fresh (dom (heap w))) new_collector)
                            (fresh (dom (heap w))) new_collector cs) ∧
    length vs = length cs.
Proof.
  destruct (perform_all_run cs (upd w (fresh (dom (heap w))) new_collector)
              (fresh (dom (heap w))) new_collector (heap_upd _ _ _)
              new_collector_pending_ok) as (vs & Hvs & Hlen).
  exists vs. split; [|done].
  rewrite bind_run, NewStatsCollector_run. cbv beta iota.
  by rewrite bind_run, Hvs.
Qed.


(** [n] increments of an [int64], with wrap-around. *)
Lemma incremented (n : nat) (y : Z) :
  is_int64 y → Nat.iter n (λ z, int64_add z 1) y = wrap64 (y + Z.of_nat n).
Proof.
  intros Hy. induction n as [|n IH].
  - simpl. by rewrite Z.add_0_r, wrap64_small.
  - rewrite Nat.iter_succ, IH. unfold int64_add. rewrite wrap64_add_l. f_equal. lia.
Qed.

Lemma after_calls_counters cs : ∀ c,
  total (after_calls c cs) =
    Nat.iter (how_many is_StartOp cs) (λ z, int64_add z 1) (total c) ∧
  ∀ t, index (counts (after_calls c cs)) t =
       Nat.iter (how_many (is_StartOp_of t) cs) (λ z, int64_add z 1) (index (counts c) t).
Proof.
  unfold after_calls. induction cs as [|cl cs IH]; intros c; [done|].
  cbn [foldl how_many]. destruct (IH (after_call c cl)) as [-> Hc].
  split.
  - destruct cl; cbn [after_call is_StartOp]; try done.
    + by rewrite started_total, Nat.iter_succ_r.
    + by destruct (epoch c), (lastOp c).
  - intros t. rewrite Hc.
    destruct cl as [opType now draw|now| | | |rate ch]; cbn [after_call is_StartOp_of];
      try done.
    + rewrite started_counts, index_insert. case_bool_decide as Ht.
      * subst. rewrite decide_True by done. by rewrite Nat.iter_succ_r.
      * by rewrite decide_False by done.
    + by destruct (epoch c), (lastOp c).
Qed.

(** X3: after any calls on a new collector, the field [total] is the
    number of calls of [StartOp] among them, and the count of each type is
    the number of calls of [StartOp] for that type, both as [int64]
    numbers; no other method changes them, and a call of [StartOp] counts
    whether or not it is selected for sampling. *)
Theorem counters_count_StartOps w cs :
  ∃ s vs w' c,
    (s ← NewStatsCollector; vs ← perform_all s cs; mret (s, vs)) w = Ok ((s, vs), w') ∧
    heap w' !! s = Some c ∧
    total c = wrap64 (Z.of_nat (how_many is_StartOp cs)) ∧
    ∀ t, Count s t w' = Ok (wrap64 (Z.of_nat (how_many (is_StartOp_of t) cs)), w').
Proof.
  destruct (calls_on_new_collector_run w cs) as (vs & Hrun & _).
  eexists _, vs, _, _. split; [exact Hrun|].
  assert (∀ w0 s, heap w0 !! s = Some new_collector →
            heap (world_after_calls w0 s new_collector cs) !! s
            = Some (after_calls new_collector cs)) as Hs.
  { intros w0 s Hs0. rewrite heap_world_after_calls by done. apply lookup_insert_eq. }
  split; [apply Hs, heap_upd|].
  destruct (after_calls_counters cs new_collector) as [Ht Hc].
  split.
  - rewrite Ht. by rewrite incremented.
  - intros t. rewrite (Count_run _ _ _ _ (Hs _ _ (heap_upd _ _ _))).
    rewrite Hc. destruct (new_collector_index t) as [-> _].
    by rewrite incremented.
Qed.

(** X4: a second [EndOp] does nothing.  On a collector whose pending
    pointers are in order, [EndOp] returns, and an [EndOp] called after it,
    at any time, returns and leaves the world as the first one left it:
    the duration of an operation is added once and its sample is sent
    once. *)
Theorem EndOp_twice_is_once w s c now now' :
  heap w !! s = Some c →
  pending_ok c →
  ∃ w1, EndOp s now w = Ok (tt, w1) ∧ EndOp s now' w1 = Ok (tt, w1).
Proof.
  intros Hs Hok. destruct (epoch c) as [e|] eqn:He.
  - destruct (Hok (ltac:(by rewrite He))) as [op Hop].
    eexists. split; [by apply EndOp_pending|].
    eapply EndOp_idle; [rewrite heap_emitted; apply heap_upd|done].
  - exists w. split; by apply EndOp_idle with c.
Qed.

(** ** Operations that are timed, and operations that are not *)

Lemma sent_on_upd w p c ch : sent_on (upd w p c) ch = sent_on w ch.
Proof. reflexivity. Qed.

Lemma sent_on_emitted w och (x : Latency) ch :
  sent_on (emitted w och x) ch =
    if decide (och = Some ch) then sent_on w ch ++ [x] else sent_on w ch.
Proof.
  unfold sent_on. destruct och as [ch0|]; cbn [emitted sent chans].
  - destruct (decide (ch0 = ch)) as [->|Hne].
    + by rewrite lookup_insert_eq, decide_True.
    + rewrite lookup_insert_ne by done. by rewrite decide_False by congruence.
  - by rewrite decide_False.
Qed.

Lemma timed_run w s c (x : timing) :
  heap w !! s = Some c →
  sampled (sampleRate c) (timing_draw x) = true →
  timed s x w =
    Ok (tt, emitted (upd w s (closed (started c (timing_op x) (timing_start x) (timing_draw x))
                                     (timing_op x) (elapsed x)))
                    (latencyChan c) (mkLatency (timing_op x) (elapsed x))).
Proof.
  intros Hs Hd. unfold timed. rewrite bind_run, (StartOp_run _ _ _ _ _ _ Hs).
  cbv beta iota.
  destruct (started_sampled c (timing_op x) (timing_start x) (timing_draw x) Hd) as [He Hop].
  rewrite (EndOp_pending _ _ _ _ _ _ (heap_upd _ _ _) He Hop).
  by rewrite upd_upd, started_latencyChan.
Qed.

Lemma range_timed_run s xs : ∀ w c,
  heap w !! s = Some c →
  Forall (λ x, sampled (sampleRate c) (timing_draw x) = true) xs →
  ∃ c' w',
    range xs (timed s) w = Ok (tt, w') ∧
    heap w' = <[s := c']> (heap w) ∧
    (∀ t, index (durations c') t =
          foldl int64_add (index (durations c) t) (elapsed_of t xs)) ∧
    (∀ ch, sent_on w' ch =
           if decide (latencyChan c = Some ch) then sent_on w ch ++ samples_of xs
           else sent_on w ch).
Proof.
  induction xs as [|x xs IH]; intros w c Hs Hxs.
  - exists c, w. cbn [range]. rewrite insert_id by done.
    split; [done|]. split; [done|]. split; [done|].
    intros ch. case_decide; [|done]. unfold samples_of. by rewrite app_nil_r.
  - apply list.Forall_cons in Hxs as [Hx Hxs].
    cbn [range]. rewrite bind_run, (timed_run _ _ _ _ Hs Hx). cbv beta iota.
    set (c1 := closed (started c (timing_op x) (timing_start x) (timing_draw x))
                      (timing_op x) (elapsed x)).
    set (w1 := emitted (upd w s c1) (latencyChan c) (mkLatency (timing_op x) (elapsed x))).
    assert (heap w1 !! s = Some c1) as Hs1.
    { subst w1. rewrite heap_emitted. apply heap_upd. }
    assert (sampleRate c1 = sampleRate c) as Hrate.
    { subst c1. unfold closed. fields. apply started_sampleRate. }
    assert (latencyChan c1 = latencyChan c) as Hch.
    { subst c1. unfold closed. fields. apply started_latencyChan. }
    destruct (IH w1 c1 Hs1) as (c' & w' & Hrun & Hheap & Hdur & Hsent).
    { by rewrite Hrate. }
    exists c', w'. split; [exact Hrun|].
    split.
    { rewrite Hheap. subst w1. rewrite heap_emitted. unfold upd. cbn [heap].
      by rewrite insert_insert_eq. }
    split.
    + intros t. rewrite Hdur. subst c1. unfold closed. fields.
      rewrite index_insert, started_durations. unfold elapsed_of.
      rewrite filter_cons. destruct (decide (timing_op x = t)) as [<-|Hne].
      * by rewrite decide_True.
      * by rewrite decide_False by congruence.
    + intros ch. rewrite Hsent, Hch. subst w1.
      rewrite sent_on_emitted, sent_on_upd.
      case_decide; [|done]. unfold samples_of. cbn [fmap list_fmap].
      by rewrite <- app_assoc.
Qed.

(** X5: on a new collector configured with a rate and a channel, a list
    of operations, each started and then ended, all selected for sampling
    (every one is at rate 1, whatever the draw).  Afterwards [TotalTime] of
    a type is the [int64] sum of the elapsed times of the operations of
    that type, and the channel has received, after what it held, one
    sample per operation in the order of the calls; the other channels are
    as they were, and with a nil channel all are. *)
Theorem sampled_operations_are_timed w rate ch xs :
  Forall (λ x, sampled rate (timing_draw x) = true) xs →
  ∃ s w',
    (s ← NewStatsCollector; SampleLatencies s rate ch;; range xs (timed s);; mret s) w
      = Ok (s, w') ∧
    (∀ t, TotalTime s t w' = Ok (wrap64 (sumZ (elapsed_of t xs)), w')) ∧
    (∀ ch', sent_on w' ch' =
            if decide (ch = Some ch') then sent_on w ch' ++ samples_of xs
            else sent_on w ch').
Proof.
  intros Hxs.
  set (s := fresh (dom (heap w))).
  set (c := configured new_collector rate ch).
  destruct (range_timed_run s xs (upd w s c) c (heap_upd _ _ _) Hxs)
    as (c' & w' & Hrun & Hheap & Hdur & Hsent).
  exists s, w'. split.
  { rewrite bind_run, NewStatsCollector_run. cbv beta iota.
    rewrite bind_run, (SampleLatencies_run _ _ new_collector) by apply heap_upd.
    cbv beta iota. rewrite upd_upd. fold s c. by rewrite bind_run, Hrun. }
  split.
  - intros t. rewrite (TotalTime_run _ _ c') by (rewrite Hheap; apply lookup_insert_eq).
    rewrite Hdur. subst c. unfold configured. fields.
    destruct (new_collector_index t) as [_ ->].
    by rewrite foldl_int64_add.
  - intros ch'. by rewrite Hsent.
Qed.

Lemma after_call_untimed c cl :
  epoch c = None →
  feqb (sampleRate c) (float64_of_int 0) = true →
  keeps_rate cl = true →
  epoch (after_call c cl) = None ∧
  sampleRate (after_call c cl) = sampleRate c ∧
  durations (after_call c cl) = durations c ∧
  sample_of c cl = None.
Proof.
  intros He Hrate Hcl.
  destruct cl as [opType now draw|now| | | |rate ch]; cbn [after_call sample_of];
    try done.
  - rewrite started_unsampled by (apply sampled_false; by left).
    unfold counted. by fields.
  - by rewrite He.
Qed.

Lemma world_after_calls_untimed cs : ∀ w s c,
  epoch c = None →
  feqb (sampleRate c) (float64_of_int 0) = true →
  Forall (λ cl, keeps_rate cl = true) cs →
  chans (world_after_calls w s c cs) = chans w ∧
  durations (after_calls c cs) = durations c.
Proof.
  unfold after_calls. induction cs as [|cl cs IH]; intros w s c He Hrate Hcs; [done|].
  apply list.Forall_cons in Hcs as [Hcl Hcs].
  destruct (after_call_untimed c cl He Hrate Hcl) as (He1 & Hrate1 & Hdur1 & Hnone).
  cbn [world_after_calls foldl].
  destruct (IH (world_after w s c cl) s (after_call c cl)) as [-> ->];
    [done|by rewrite Hrate1|done|].
  split; [|done]. unfold world_after. by rewrite Hnone.
Qed.

(** X6: at rate 0 nothing is timed.  On a new collector configured with
    a rate equal to 0 and any channel, after any calls that do not
    configure it again, nothing was sent on any channel and [TotalTime] is
    0 for every type, while [Count] of a type is the number of calls of
    [StartOp] for it. *)
Theorem rate_zero_times_nothing w rate ch cs :
  feqb rate (float64_of_int 0) = true →
  Forall (λ cl, keeps_rate cl = true) cs →
  ∃ s vs w',
    (s ← NewStatsCollector; SampleLatencies s rate ch;;
     vs ← perform_all s cs; mret (s, vs)) w = Ok ((s, vs), w') ∧
    chans w' = chans w ∧
    ∀ t, TotalTime s t w' = Ok (0, w') ∧
         Count s t w' = Ok (wrap64 (Z.of_nat (how_many (is_StartOp_of t) cs)), w').
Proof.
  intros Hrate Hcs.
  set (s := fresh (dom (heap w))).
  set (c := configured new_collector rate ch).
  assert (pending_ok c) as Hok by by intros [? ?].
  destruct (perform_all_run cs (upd w s c) s c (heap_upd _ _ _) Hok) as (vs & Hvs & _).
  exists s, vs, (world_after_calls (upd w s c) s c cs).
  split.
  { rewrite bind_run, NewStatsCollector_run. cbv beta iota.
    rewrite bind_run, (SampleLatencies_run _ _ new_collector) by apply heap_upd.
    cbv beta iota. rewrite upd_upd. fold s c. by rewrite bind_run, Hvs. }
  destruct (world_after_calls_untimed cs (upd w s c) s c eq_refl Hrate Hcs) as [Hch Hdur].
  split; [exact Hch|].
  assert (heap (world_after_calls (upd w s c) s c cs) !! s = Some (after_calls c cs)) as Hs.
  { rewrite heap_world_after_calls by apply heap_upd. apply lookup_insert_eq. }
  intros t. rewrite (TotalTime_run _ _ _ _ Hs), (Count_run _ _ _ _ Hs), Hdur.
  destruct (after_calls_counters cs c) as [_ ->].
  subst c. unfold configured. fields.
  destruct (new_collector_index t) as [-> ->].
  by rewrite incremented.
Qed.

(** ** Combined collectors, through their methods *)

Lemma Count_inv w w' p t z :
  Count p t w = Ok (z, w') → ∃ st, heap w !! p = Some st ∧ z = index (counts st) t.
Proof.
  unfold Count. rewrite bind_run. unfold load.
  destruct (heap w !! p) as [st|]; [|done].
  intros [= <- _]. by exists st.
Qed.

Lemma TotalTime_inv w w' p t z :
  TotalTime p t w = Ok (z, w') → ∃ st, heap w !! p = Some st ∧ z = index (durations st) t.
Proof.
  unfold TotalTime. rewrite bind_run. unfold load.
  destruct (heap w !! p) as [st|]; [|done].
  intros [= <- _]. by exists st.
Qed.

(** The objects behind pointers on which [Count] returns. *)
Lemma counted_objects w t ps : ∀ (zs : list Z),
  Forall2 (λ p z, Count p t w = Ok (z, w)) ps zs →
  ∃ sts, Forall2 (λ p st, heap w !! p = Some st) ps sts ∧
         zs = (λ st, index (counts st) t) <$> sts.
Proof.
  induction ps as [|p ps IH]; intros zs Hzs.
  - apply Forall2_nil_inv_l in Hzs as ->. by exists [].
  - apply Forall2_cons_inv_l in Hzs as (z & zs' & Hz & Hzs & ->).
    destruct (Count_inv _ _ _ _ _ Hz) as (st & Hp & ->).
    destruct (IH zs' Hzs) as (sts & Hsts & ->).
    exists (st :: sts). split; [by constructor|done].
Qed.

Lemma timed_objects w t ps : ∀ sts (zs : list Z),
  Forall2 (λ p st, heap w !! p = Some st) ps sts →
  Forall2 (λ p z, TotalTime p t w = Ok (z, w)) ps zs →
  zs = (λ st, index (durations st) t) <$> sts.
Proof.
  induction ps as [|p ps IH]; intros sts zs Hsts Hzs.
  - apply Forall2_nil_inv_l in Hsts as ->. by apply Forall2_nil_inv_l in Hzs as ->.
  - apply Forall2_cons_inv_l in Hsts as (st & sts' & Hp & Hsts & ->).
    apply Forall2_cons_inv_l in Hzs as (z & zs' & Hz & Hzs & ->).
    destruct (TotalTime_inv _ _ _ _ _ Hz) as (st' & Hp' & ->).
    rewrite Hp in Hp'. injection Hp' as <-.
    cbn [fmap list_fmap]. f_equal. by apply IH.
Qed.

(** X7: when [AllOpTypes] lists each type once, [Count] and [TotalTime]
    of a listed type on the collector that [CombineStats] returns are the
    [int64] sums of what [Count] and [TotalTime] return on the arguments, a
    collector passed twice being added twice; the arguments return
    afterwards what they returned before. *)
Theorem CombineStats_Count_TotalTime_sum w t ps (ns ds : list Z) :
  NoDup AllOpTypes →
  t ∈ AllOpTypes →
  Forall2 (λ p z, Count p t w = Ok (z, w)) ps ns →
  Forall2 (λ p z, TotalTime p t w = Ok (z, w)) ps ds →
  ∃ r w',
    CombineStats ps w = Ok (r, w') ∧
    Count r t w' = Ok (wrap64 (sumZ ns), w') ∧
    TotalTime r t w' = Ok (wrap64 (sumZ ds), w') ∧
    Forall2 (λ p z, Count p t w' = Ok (z, w')) ps ns ∧
    Forall2 (λ p z, TotalTime p t w' = Ok (z, w')) ps ds.
Proof.
  intros Hnd Ht Hns Hds.
  destruct (counted_objects w t ps ns Hns) as (sts & Hsts & ->).
  rewrite (timed_objects w t ps sts ds Hsts Hds). clear Hns Hds.
  destruct (CombineStats_sums w ps sts Hnd Hsts) as (r & c & w' & Hrun & Hr & Hsum & _).
  destruct (Hsum t Ht) as [Hc Hd].
  exists r, w'. split; [exact Hrun|].
  split; [by rewrite (Count_run _ _ _ _ Hr), Hc|].
  split; [by rewrite (TotalTime_run _ _ _ _ Hr), Hd|].
  assert (∀ q st, heap w !! q = Some st → heap w' !! q = Some st) as Hold.
  { rewrite (CombineStats_run w ps sts Hsts) in Hrun. injection Hrun as <- <-.
    intros q st Hq. rewrite heap_upd_ne; [done|].
    intros Heq. rewrite <- Heq, fresh_loc_unused in Hq. done. }
  clear Hrun Hr Hsum Hc Hd.
  split.
  - induction Hsts as [|p st ps sts Hp _ IH]; cbn [fmap list_fmap]; constructor; [|done].
    by apply Count_run, Hold.
  - induction Hsts as [|p st ps sts Hp _ IH]; cbn [fmap list_fmap]; constructor; [|done].
    by apply TotalTime_run, Hold.
Qed.

Lemma combined_over_unlisted sts t l : ∀ n,
  t ∉ l →
  index (counts (combined_over l n sts)) t = index (counts n) t ∧
  index (durations (combined_over l n sts)) t = index (durations n) t.
Proof.
  unfold combined_over. induction l as [|opType l IH]; intros n Ht; [done|].
  apply not_elem_of_cons in Ht as [Hne Ht].
  cbn [foldl]. destruct (IH (added_all opType n sts) Ht) as [-> ->].
  destruct (added_all_fields opType sts n) as (_ & Hc & Hd).
  by rewrite Hc, Hd, !decide_False by done.
Qed.

(** X8: [CombineStats] adds up the types of [AllOpTypes] only.  For a
    type that the list does not name, [Count] and [TotalTime] on its
    result are 0, whatever the arguments hold for that type (a [StartOp]
    for such a type is counted by the collector that received it). *)
Theorem CombineStats_drops_unlisted_types w t ps :
  t ∉ AllOpTypes →
  Forall (λ p, is_Some (heap w !! p)) ps →
  ∃ r w',
    CombineStats ps w = Ok (r, w') ∧
    Count r t w' = Ok (0, w') ∧
    TotalTime r t w' = Ok (0, w').
Proof.
  intros Ht Hps. destruct (pointers_objects w ps Hps) as [sts Hsts].
  eexists _, _. split; [by apply CombineStats_run|].
  destruct (combined_over_unlisted sts t AllOpTypes new_collector Ht) as [Hc Hd].
  destruct (new_collector_index t) as [Hc0 Hd0].
  split.
  - by rewrite (Count_run _ _ _ _ (heap_upd _ _ _)), Hc, Hc0.
  - by rewrite (TotalTime_run _ _ _ _ (heap_upd _ _ _)), Hd, Hd0.
Qed.

(** X9: [CombineStats] with no argument does what [NewStatsCollector]
    does: the same pointer and the same world, so the same zeroed
    collector, whatever [AllOpTypes] lists. *)
Theorem CombineStats_no_argument w :
  ∃ r w',
    CombineStats [] w = Ok (r, w') ∧
    NewStatsCollector w = Ok (r, w') ∧
    ∀ t, Count r t w' = Ok (0, w') ∧ TotalTime r t w' = Ok (0, w').
Proof.
  eexists _, _. split; [rewrite CombineStats_nil; apply NewStatsCollector_run|].
  split; [apply NewStatsCollector_run|].
  intros t. destruct (new_collector_index t) as [Hc Hd].
  rewrite (Count_run _ _ _ _ (heap_upd _ _ _)), (TotalTime_run _ _ _ _ (heap_upd _ _ _)).
  by rewrite Hc, Hd.
Qed.

(** ** The two implementations of the interface *)

Lemma perform_all_null (e : nullStatsCollector) cs w :
  perform_all e cs w = Ok (zero_value <$> cs, w).
Proof.
  induction cs as [|cl cs IH]; [done|].
  cbn [perform_all fmap list_fmap]. rewrite bind_run.
  replace (perform e cl w) with (Ok (zero_value cl, w)) by by destruct cl.
  cbv beta iota. by rewrite bind_run, IH.
Qed.

(** A collector on which nothing was started and nothing is pending. *)
Lemma perform_unstarted w s c cl :
  heap w !! s = Some c →
  epoch c = None →
  (∀ t, index (counts c) t = 0 ∧ index (durations c) t = 0) →
  is_StartOp cl = false →
  ∃ c',
    perform s cl w = Ok (zero_value cl, upd w s c') ∧
    epoch c' = None ∧
    (∀ t, index (counts c') t = 0 ∧ index (durations c') t = 0).
Proof.
  intros Hs He Hz Hcl.
  destruct cl as [opType now draw|now|opType|opType|opType|rate ch]; [done|..];
    cbn [perform iEndOp iCount iOpsSec iLatencyInMs iSampleLatencies
         StatsCollector_methods zero_value]; rewrite bind_run.
  - rewrite (EndOp_idle _ _ _ _ Hs He). exists c. by rewrite upd_id.
  - rewrite (Count_run _ _ _ _ Hs). destruct (Hz opType) as [-> _].
    exists c. by rewrite upd_id.
  - rewrite (OpsSec_run _ _ _ _ Hs). destruct (Hz opType) as [_ ->].
    exists c. by rewrite upd_id.
  - rewrite (LatencyInMs_run _ _ _ _ Hs). destruct (Hz opType) as [-> _].
    rewrite feqb_0_0. exists c. by rewrite upd_id.
  - rewrite (SampleLatencies_run _ _ _ _ _ Hs). by exists (configured c rate ch).
Qed.

Lemma perform_all_unstarted cs : ∀ w s c,
  heap w !! s = Some c →
  epoch c = None →
  (∀ t, index (counts c) t = 0 ∧ index (durations c) t = 0) →
  Forall (λ cl, is_StartOp cl = false) cs →
  ∃ c', perform_all s cs w = Ok (zero_value <$> cs, upd w s c').
Proof.
  induction cs as [|cl cs IH]; intros w s c Hs He Hz Hcs.
  - exists c. cbn [perform_all]. by rewrite upd_id.
  - apply list.Forall_cons in Hcs as [Hcl Hcs].
    destruct (perform_unstarted w s c cl Hs He Hz Hcl) as (c1 & Hrun & He1 & Hz1).
    destruct (IH (upd w s c1) s c1 (heap_upd _ _ _) He1 Hz1 Hcs) as [c2 Hrun2].
    exists c2. cbn [perform_all fmap list_fmap].
    rewrite bind_run, Hrun. cbv beta iota. rewrite bind_run, Hrun2.
    by rewrite upd_upd.
Qed.

(** X13: until the first [StartOp], a collector made by
    [NewStatsCollector] answers as the one made by [NewNullStatsCollector]
    does.  For calls among which there is no [StartOp] (queries, [EndOp],
    [SampleLatencies]), both return the same values, the zero of each
    result type; the null collector leaves the world as it was, and the
    other one changes no channel. *)
Theorem unstarted_collector_answers_as_null w cs :
  Forall (λ cl, is_StartOp cl = false) cs →
  ∃ w',
    (s ← NewStatsCollector; perform_all s cs) w = Ok (zero_value <$> cs, w') ∧
    chans w' = chans w ∧
    (e ← NewNullStatsCollector; perform_all e cs) w = Ok (zero_value <$> cs, w).
Proof.
  intros Hcs.
  destruct (perform_all_unstarted cs (upd w (fresh (dom (heap w))) new_collector)
              (fresh (dom (heap w))) new_collector (heap_upd _ _ _) eq_refl
              new_collector_index Hcs) as [c' Hrun].
  eexists. split.
  { rewrite bind_run, NewStatsCollector_run. cbv beta iota. exact Hrun. }
  split; [done|].
  rewrite bind_run. unfold NewNullStatsCollector. rewrite ret_run.
  apply perform_all_null.
Qed.

End Properties.


(** * The derived metrics, in exact arithmetic *)

Section Metrics.

Context {OpType : Type} `{Countable OpType}.

Lemma Qc_of_Z_nonzero (z : Z) : z ≠ 0 → Qc_of_Z z ≠ 0%Qc.
Proof. intros Hz Heq. apply Hz, Z2Qc_inj. by rewrite Z2Qc_inj_0. Qed.

Lemma Qc_of_Z_Second_nonzero : Qc_of_Z Second ≠ 0%Qc.
Proof. by apply Qc_of_Z_nonzero. Qed.

(** [d.Seconds()] is [d] nanoseconds in seconds. *)
Lemma Seconds_exact (d : Duration) :
  Seconds (F := Qc) d = (Qc_of_Z d / Qc_of_Z Second)%Qc.
Proof.
  unfold Seconds. cbn [fadd fdiv float64_of_int exact_Float64].
  fold Second. rewrite (Z.quot_rem' d Second) at 3.
  rewrite Z2Qc_inj_add, Z2Qc_inj_mul.
  pose proof Qc_of_Z_Second_nonzero. by field.
Qed.

(** C6: [OpsSec] returns for every collector, with no panic and no
    change of the world, and returns 0 when the accumulated duration of
    the type is 0, whatever the arithmetic of [float64].  When that
    duration is not 0, the quotient it computes, [count * 1e9 / nanoseconds],
    is in exact arithmetic the count of the type divided by its accumulated
    duration in seconds. *)
Theorem OpsSec_count_per_second_of_duration (opType : OpType) :
  (∀ (F : Type) (Fl : Float64 F) (w : World (F := F)) s c,
     heap w !! s = Some c →
     ∃ v, OpsSec s opType w = Ok (v, w) ∧
          (index (durations c) opType = 0 → v = float64_of_int 0)) ∧
  (∀ (w : World (F := Qc)) s c,
     heap w !! s = Some c →
     index (durations c) opType ≠ 0 →
     OpsSec s opType w =
       Ok ((Qc_of_Z (index (counts c) opType) /
            (Qc_of_Z (index (durations c) opType) / Qc_of_Z Second))%Qc, w)).
Proof.
  split.
  - intros F Fl w s c Hs. eexists. split; [by apply OpsSec_run|].
    by intros ->.
  - intros w s c Hs Hd. rewrite (OpsSec_run _ _ _ _ Hs).
    destruct (Z.eqb_spec (index (durations c) opType) 0) as [|_]; [done|].
    do 2 f_equal. cbn [fmul fdiv float64_of_int exact_Float64].
    pose proof (Qc_of_Z_nonzero _ Hd).
    pose proof Qc_of_Z_Second_nonzero. by field.
Qed.

(** C7: [LatencyInMs] returns for every collector, with no panic and no
    change of the world, and returns 0 when the count of the type is 0,
    whatever the arithmetic of [float64].  When the count is not 0, what
    it computes is in exact arithmetic the accumulated duration of the
    type in seconds, divided by the count, times 1000. *)
Theorem LatencyInMs_mean_duration_in_ms (opType : OpType) :
  (∀ (F : Type) (Fl : Float64 F) (w : World (F := F)) s c,
     heap w !! s = Some c →
     ∃ v, LatencyInMs s opType w = Ok (v, w) ∧
          (index (counts c) opType = 0 → v = float64_of_int 0)) ∧
  (∀ (w : World (F := Qc)) s c,
     heap w !! s = Some c →
     index (counts c) opType ≠ 0 →
     LatencyInMs s opType w =
       Ok ((Qc_of_Z (index (durations c) opType) / Qc_of_Z Second /
            Qc_of_Z (index (counts c) opType) * Qc_of_Z 1000)%Qc, w)).
Proof.
  split.
  - intros F Fl w s c Hs. eexists. split; [by apply LatencyInMs_run|].
    intros ->. by rewrite feqb_0_0.
  - intros w s c Hs Hc. rewrite (LatencyInMs_run _ _ _ _ Hs).
    rewrite Seconds_exact. cbn [feqb fmul fdiv float64_of_int exact_Float64].
    rewrite bool_decide_eq_false_2; [done|].
    by intros ?%Z2Qc_inj.
Qed.

(** X10: in exact arithmetic the two metrics are reciprocal up to the
    unit: for a type with a count and an accumulated duration that are not
    0, operations per second times milliseconds per operation is 1000. *)
Theorem OpsSec_LatencyInMs_reciprocal (w : World (F := Qc)) s c (opType : OpType) :
  heap w !! s = Some c →
  index (counts c) opType ≠ 0 →
  index (durations c) opType ≠ 0 →
  ∃ o l,
    OpsSec s opType w = Ok (o, w) ∧
    LatencyInMs s opType w = Ok (l, w) ∧
    (o * l = Qc_of_Z 1000)%Qc.
Proof.
  intros Hs Hc Hd. eexists _, _.
  split; [by apply OpsSec_run|]. split; [by apply LatencyInMs_run|].
  destruct (Z.eqb_spec (index (durations c) opType) 0) as [|_]; [done|].
  rewrite Seconds_exact. cbn [feqb fmul fdiv float64_of_int exact_Float64].
  rewrite bool_decide_eq_false_2 by by intros ?%Z2Qc_inj.
  pose proof (Qc_of_Z_nonzero _ Hc). pose proof (Qc_of_Z_nonzero _ Hd).
  pose proof Qc_of_Z_Second_nonzero. by field.
Qed.

(** X11: in exact arithmetic and for a draw in [0, 1), as [rand.Float64]
    gives it, [StartOp] starts the timer exactly when the draw is below
    the rate: the two tests of the rate against 0 and 1 change nothing to
    that.  So a rate of 1 or more always samples, a rate of 0 or less
    never does, and an unselected [StartOp] leaves the pending pointers as
    they were. *)
Theorem StartOp_samples_below_rate (w : World (F := Qc)) s c (opType : OpType) now draw :
  heap w !! s = Some c →
  (0 ≤ draw)%Qc →
  (draw < 1)%Qc →
  ∃ w' c',
    StartOp s opType now draw w = Ok (tt, w') ∧
    heap w' !! s = Some c' ∧
    (epoch c', lastOp c') =
      if bool_decide (draw < sampleRate c)%Qc then (Some now, Some opType)
      else (epoch c, lastOp c).
Proof.
  intros Hs H0 H1. eexists _, _.
  split; [by apply StartOp_run|]. split; [apply heap_upd|].
  assert (sampled (sampleRate c) draw = bool_decide (draw < sampleRate c)%Qc) as Hd.
  { unfold sampled. cbn [feqb fltb float64_of_int exact_Float64].
    case_bool_decide as Hz.
    - rewrite Hz, Z2Qc_inj_0. symmetry. apply bool_decide_eq_false_2.
      by apply Qcle_not_lt.
    - case_bool_decide as Ho; [|done].
      rewrite Ho, Z2Qc_inj_1. symmetry. by apply bool_decide_eq_true_2. }
  unfold started. rewrite Hd. by destruct (bool_decide _).
Qed.

(** X12: on the machine's floats, a rate that is not a number turns
    sampling off: whatever the draw, [StartOp] counts the operation and
    leaves the pending pointers as they were. *)
Theorem StartOp_nan_rate_never_samples (w : World (F := float)) s c (opType : OpType)
    now draw :
  heap w !! s = Some c →
  sampleRate c = nan →
  ∃ w' c',
    StartOp s opType now draw w = Ok (tt, w') ∧
    heap w' !! s = Some c' ∧
    epoch c' = epoch c ∧
    lastOp c' = lastOp c ∧
    index (counts c') opType = int64_add (index (counts c) opType) 1 ∧
    total c' = int64_add (total c) 1.
Proof.
  intros Hs Hnan. eexists _, _.
  split; [by apply StartOp_run|]. split; [apply heap_upd|].
  assert (sampled (sampleRate c) draw = false) as Hd.
  { rewrite Hnan. unfold sampled. cbn [feqb fltb float64_of_int ieee_Float64].
    replace (PrimFloat.eqb nan (SF2Prim (binary_normalize prec emax 0 0 false)))
      with false by (vm_compute; reflexivity).
    replace (PrimFloat.eqb nan (SF2Prim (binary_normalize prec emax 1 0 false)))
      with false by (vm_compute; reflexivity).
    rewrite ltb_spec. replace (Prim2SF nan) with S754_nan by (vm_compute; reflexivity).
    by destruct (Prim2SF draw) as [[]|[]| |[]]. }
  rewrite started_unsampled by done. unfold counted.
  cbn [counts total epoch lastOp set_counts set_total].
  by rewrite index_insert, decide_True.
Qed.

End Metrics.

(** * The properties at concrete collectors *)

(** [EndOp] on the idle collector, and after a [StartOp] that the draw
    0.75 does not select at rate 0.5. *)
Lemma EndOp_no_pending_noop_witness :
  heap (ex_world ex_idle) !! 1%positive = Some ex_idle ∧
  epoch ex_idle = None ∧
  sampled (sampleRate ex_idle) 0.75%float = false ∧
  EndOp 1%positive 400 (ex_world ex_idle) = Ok (tt, ex_world ex_idle) ∧
  ∃ w1, StartOp 1%positive "update"%string 150 0.75%float (ex_world ex_idle) = Ok (tt, w1) ∧
        EndOp 1%positive 400 w1 = Ok (tt, w1).
Proof.
  assert (heap (ex_world ex_idle) !! 1%positive = Some ex_idle) as Hs by reflexivity.
  assert (sampled (sampleRate ex_idle) 0.75%float = false) as Hd by (vm_compute; reflexivity).
  destruct (EndOp_no_pending_noop (ex_world ex_idle) 1%positive ex_idle 400 Hs eq_refl)
    as [Hend Hstart].
  split; [exact Hs|]. split; [reflexivity|]. split; [exact Hd|]. split; [exact Hend|].
  exact (Hstart "update"%string 150 0.75%float Hd).
Defined.

(** An ["insert"] is pending since time 100; a [StartOp] of ["update"] at
    time 150 is not selected (rate 0.5, draw 0.75); the [EndOp] at time
    400 adds 300 to the durations of ["insert"] and sends that sample. *)
Lemma unsampled_StartOp_keeps_pending_witness :
  heap (ex_world ex_pending) !! 1%positive = Some ex_pending ∧
  epoch ex_pending = Some 100 ∧
  lastOp ex_pending = Some "insert"%string ∧
  feqb (sampleRate ex_pending) (float64_of_int 1) = false ∧
  fltb 0.75%float (sampleRate ex_pending) = false ∧
  ∃ w1 w2 c2,
    StartOp 1%positive "update"%string 150 0.75%float (ex_world ex_pending) = Ok (tt, w1) ∧
    EndOp 1%positive 400 w1 = Ok (tt, w2) ∧
    heap w2 !! 1%positive = Some c2 ∧
    index (durations c2) "insert"%string = 3000000300 ∧
    index (durations c2) "update"%string = 0 ∧
    chans w2 !! 7%positive = Some [mkLatency "insert"%string 300].
Proof.
  assert (heap (ex_world ex_pending) !! 1%positive = Some ex_pending) as Hs by reflexivity.
  assert (feqb (sampleRate ex_pending) (float64_of_int 1) = false) as H1
    by (vm_compute; reflexivity).
  assert (fltb 0.75%float (sampleRate ex_pending) = false) as H2 by (vm_compute; reflexivity).
  destruct (unsampled_StartOp_keeps_pending (ex_world ex_pending) 1%positive ex_pending
              100 "insert"%string "update"%string 150 0.75%float 400
              Hs eq_refl eq_refl (or_intror (conj H1 H2)))
    as (w1 & c1 & w2 & c2 & Hstart & _ & _ & _ & Hend & Hs2 & Hdur & Hch & _).
  do 5 (split; [done|]).
  exists w1, w2, c2. do 3 (split; [done|]).
  rewrite !Hdur, Hch. repeat split; vm_compute; reflexivity.
Defined.

(** Two selected calls: ["insert"] at time 100, ["update"] at time 200,
    and one [EndOp] at time 500.  Only ["update"] is timed. *)
Lemma overlapping_StartOp_times_second_only_witness :
  heap (ex_world ex_idle) !! 1%positive = Some ex_idle ∧
  sampled (sampleRate ex_idle) 0.25%float = true ∧
  sampled (sampleRate ex_idle) 0.125%float = true ∧
  ∃ w1 w2 w3 c3,
    StartOp 1%positive "insert"%string 100 0.25%float (ex_world ex_idle) = Ok (tt, w1) ∧
    StartOp 1%positive "update"%string 200 0.125%float w1 = Ok (tt, w2) ∧
    EndOp 1%positive 500 w2 = Ok (tt, w3) ∧
    heap w3 !! 1%positive = Some c3 ∧
    index (durations c3) "insert"%string = 3000000000 ∧
    index (durations c3) "update"%string = 300 ∧
    index (counts c3) "insert"%string = 3 ∧
    index (counts c3) "update"%string = 1 ∧
    chans w3 !! 7%positive = Some [mkLatency "update"%string 300].
Proof.
  assert (heap (ex_world ex_idle) !! 1%positive = Some ex_idle) as Hs by reflexivity.
  assert (sampled (sampleRate ex_idle) 0.25%float = true) as H1 by (vm_compute; reflexivity).
  assert (sampled (sampleRate ex_idle) 0.125%float = true) as H2 by (vm_compute; reflexivity).
  destruct (overlapping_StartOp_times_second_only (ex_world ex_idle) 1%positive ex_idle
              "insert"%string "update"%string 100 0.25%float 200 0.125%float 500 Hs H1 H2)
    as (w1 & c1 & w2 & c2 & w3 & c3 & Hst1 & _ & _ & _ & Hst2 & _ & _ & _ & Hend & Hs3 &
        _ & _ & Hdur & Hcnt & Hch).
  do 3 (split; [done|]).
  exists w1, w2, w3, c3. do 4 (split; [done|]).
  rewrite !Hdur, !Hcnt, Hch. repeat split; vm_compute; reflexivity.
Defined.

(** An ["insert"] is pending since time 100 on a collector that sends on
    channel 7.  [SampleLatencies 0 (Some 8)] turns sampling off and
    installs channel 8; the [EndOp] at time 400 still records the 300
    nanoseconds, and sends the sample on channel 8. *)
Lemma SampleLatencies_rate_later_channel_now_witness :
  heap (ex_world ex_pending) !! 1%positive = Some ex_pending ∧
  epoch ex_pending = Some 100 ∧
  lastOp ex_pending = Some "insert"%string ∧
  ∃ w1 w2 c2,
    SampleLatencies 1%positive (float64_of_int 0) (Some 8%positive) (ex_world ex_pending)
      = Ok (tt, w1) ∧
    EndOp 1%positive 400 w1 = Ok (tt, w2) ∧
    heap w2 !! 1%positive = Some c2 ∧
    index (durations c2) "insert"%string = 3000000300 ∧
    chans w2 !! 8%positive = Some [mkLatency "insert"%string 300] ∧
    chans w2 !! 7%positive = None.
Proof.
  assert (heap (ex_world ex_pending) !! 1%positive = Some ex_pending) as Hs by reflexivity.
  destruct (SampleLatencies_rate_later_channel_now (ex_world ex_pending) 1%positive
              ex_pending 100 "insert"%string (float64_of_int 0) (Some 8%positive) 400
              Hs eq_refl eq_refl)
    as (w1 & c1 & w2 & c2 & Hcfg & _ & _ & _ & _ & _ & _ & _ & _ & _ & Hend & Hs2 &
        Hdur & Hch & _).
  do 3 (split; [done|]).
  exists w1, w2, c2. do 3 (split; [done|]).
  rewrite !Hdur, Hch. repeat split; vm_compute; reflexivity.
Defined.

(** C2 as the specification words it fails.  On the same collector, the
    calls [SampleLatencies 1 (Some 8)] and [EndOp] leave the sample of the
    pending ["insert"] on channel 8, installed by the call, and nothing on
    channel 7, installed before it; [EndOp] alone sends it on channel 7. *)
Lemma SampleLatencies_channel_reaches_pending :
  (∃ w', (SampleLatencies 1%positive (float64_of_int 1) (Some 8%positive);;
          EndOp 1%positive 400) (ex_world ex_pending) = Ok (tt, w') ∧
         chans w' !! 8%positive = Some [mkLatency "insert"%string 300] ∧
         chans w' !! 7%positive = None) ∧
  (∃ w', EndOp 1%positive 400 (ex_world ex_pending) = Ok (tt, w') ∧
         chans w' !! 8%positive = None ∧
         chans w' !! 7%positive = Some [mkLatency "insert"%string 300]) ∧
  ¬ SampleLatencies_not_retroactive (OpType := string) (F := float).
Proof.
  assert (heap (ex_world ex_pending) !! 1%positive = Some ex_pending) as Hs by reflexivity.
  assert (∃ w', (SampleLatencies 1%positive (float64_of_int 1) (Some 8%positive);;
                 EndOp 1%positive 400) (ex_world ex_pending) = Ok (tt, w') ∧
                chans w' !! 8%positive = Some [mkLatency "insert"%string 300] ∧
                chans w' !! 7%positive = None) as Hcfg.
  { eexists. split.
    - rewrite bind_run, (SampleLatencies_run _ _ _ _ _ Hs). cbv beta iota.
      eapply EndOp_pending; [apply heap_upd|reflexivity|reflexivity].
    - split; reflexivity. }
  assert (∃ w', EndOp 1%positive 400 (ex_world ex_pending) = Ok (tt, w') ∧
                chans w' !! 8%positive = None ∧
                chans w' !! 7%positive = Some [mkLatency "insert"%string 300]) as Hplain.
  { eexists. split.
    - eapply EndOp_pending; [exact Hs|reflexivity|reflexivity].
    - split; reflexivity. }
  split; [exact Hcfg|]. split; [exact Hplain|].
  intros Hclaim.
  destruct Hcfg as (w1 & Hrun1 & Hnew & _). destruct Hplain as (w2 & Hrun2 & Hnone & _).
  pose proof (Hclaim (ex_world ex_pending) 1%positive ex_pending 100 "insert"%string
                (float64_of_int 1) (Some 8%positive) 400 w1 w2
                Hs eq_refl eq_refl Hrun1 Hrun2) as Heq.
  rewrite Heq, Hnone in Hnew. discriminate.
Qed.

(** On a new collector: sampling is turned off, an ["update"] is started
    and ended, then ["insert"] is started three times.  [Count] of
    ["insert"] is 3. *)
Lemma Count_is_number_of_StartOps_witness :
  ∃ w',
    (s ← NewStatsCollector;
     perform_all s [CallSampleLatencies (float64_of_int 0) None;
                    CallStartOp "update"%string 5 0.5%float;
                    CallEndOp 9];;
     range [(10, 0.5%float); (20, 0.25%float); (30, 0.75%float)]
           (λ a, StartOp s "insert"%string a.1 a.2);;
     Count s "insert"%string) ex_empty = Ok (3, w').
Proof.
  apply (Count_is_number_of_StartOps ex_empty "insert"%string
           [CallSampleLatencies (float64_of_int 0) None;
            CallStartOp "update"%string 5 0.5%float;
            CallEndOp 9]
           [(10, 0.5%float); (20, 0.25%float); (30, 0.75%float)]).
  - intros now draw Hin.
    repeat (apply elem_of_cons in Hin as [Hin|Hin]; [discriminate Hin|]).
    by apply elem_of_nil in Hin.
  - vm_compute. discriminate.
Defined.

(** [CombineStats] on the two collectors of [ex_world2], the first one
    given twice: both are as they were, and the result has rate 1 and no
    channel. *)
Lemma CombineStats_leaves_inputs_witness :
  Forall (λ p, is_Some (heap ex_world2 !! p)) [1; 2; 1]%positive ∧
  ∃ newStats c w',
    CombineStats [1; 2; 1]%positive ex_world2 = Ok (newStats, w') ∧
    heap w' !! 1%positive = Some ex_idle ∧
    heap w' !! 2%positive = Some ex_pending ∧
    chans w' = chans ex_world2 ∧
    heap w' !! newStats = Some c ∧
    sampleRate c = float64_of_int 1 ∧
    latencyChan c = None ∧
    epoch c = None.
Proof.
  assert (Forall (λ p, is_Some (heap ex_world2 !! p)) [1; 2; 1]%positive) as Hps.
  { repeat constructor; eexists; reflexivity. }
  split; [exact Hps|].
  destruct (CombineStats_leaves_inputs ex_world2 [1; 2; 1]%positive Hps)
    as (newStats & c & w' & Hrun & _ & Hold & _ & Hch & Hnew & Hrate & Hchan & Hep & _).
  exists newStats, c, w'.
  split; [exact Hrun|].
  split; [apply Hold; reflexivity|].
  split; [apply Hold; reflexivity|].
  split; [exact Hch|]. split; [exact Hnew|]. split; [exact Hrate|].
  split; [exact Hchan|exact Hep].
Defined.

(** In exact arithmetic, 4 inserts in 2 seconds are 2 operations per
    second; on the machine's floats, a type with no accumulated duration
    has 0 operations per second. *)
Lemma OpsSec_count_per_second_of_duration_witness :
  heap (ex_world ex_exact) !! 1%positive = Some ex_exact ∧
  index (durations ex_exact) "insert"%string ≠ 0 ∧
  (∃ v, OpsSec 1%positive "insert"%string (ex_world ex_exact) = Ok (v, ex_world ex_exact) ∧
        v = Qc_of_Z 2) ∧
  heap (ex_world ex_idle) !! 1%positive = Some ex_idle ∧
  index (durations ex_idle) "update"%string = 0 ∧
  ∃ v, OpsSec 1%positive "update"%string (ex_world ex_idle) = Ok (v, ex_world ex_idle) ∧
       v = 0%float.
Proof.
  assert (heap (ex_world ex_exact) !! 1%positive = Some ex_exact) as Hs by reflexivity.
  assert (index (durations ex_exact) "insert"%string ≠ 0) as Hd by (vm_compute; discriminate).
  assert (heap (ex_world ex_idle) !! 1%positive = Some ex_idle) as Hs' by reflexivity.
  assert (index (durations ex_idle) "update"%string = 0) as Hd' by reflexivity.
  destruct (OpsSec_count_per_second_of_duration "insert"%string) as [_ Hexact].
  destruct (OpsSec_count_per_second_of_duration "update"%string) as [Hzero _].
  split; [exact Hs|]. split; [exact Hd|]. split.
  { eexists. split; [exact (Hexact _ _ _ Hs Hd)|].
    apply Qc_is_canon. vm_compute. reflexivity. }
  split; [exact Hs'|]. split; [exact Hd'|].
  destruct (Hzero float _ _ _ _ Hs') as (v & Hrun & Hv).
  exists v. split; [exact Hrun|]. rewrite (Hv Hd'). vm_compute. reflexivity.
Defined.

(** In exact arithmetic, 2 seconds over 4 inserts are 500 milliseconds
    each; on the machine's floats, a type with count 0 has latency 0. *)
Lemma LatencyInMs_mean_duration_in_ms_witness :
  heap (ex_world ex_exact) !! 1%positive = Some ex_exact ∧
  index (counts ex_exact) "insert"%string ≠ 0 ∧
  (∃ v, LatencyInMs 1%positive "insert"%string (ex_world ex_exact)
          = Ok (v, ex_world ex_exact) ∧
        v = Qc_of_Z 500) ∧
  heap (ex_world ex_idle) !! 1%positive = Some ex_idle ∧
  index (counts ex_idle) "update"%string = 0 ∧
  ∃ v, LatencyInMs 1%positive "update"%string (ex_world ex_idle) = Ok (v, ex_world ex_idle) ∧
       v = 0%float.
Proof.
  assert (heap (ex_world ex_exact) !! 1%positive = Some ex_exact) as Hs by reflexivity.
  assert (index (counts ex_exact) "insert"%string ≠ 0) as Hc by (vm_compute; discriminate).
  assert (heap (ex_world ex_idle) !! 1%positive = Some ex_idle) as Hs' by reflexivity.
  assert (index (counts ex_idle) "update"%string = 0) as Hc' by reflexivity.
  destruct (LatencyInMs_mean_duration_in_ms "insert"%string) as [_ Hexact].
  destruct (LatencyInMs_mean_duration_in_ms "update"%string) as [Hzero _].
  split; [exact Hs|]. split; [exact Hc|]. split.
  { eexists. split; [exact (Hexact _ _ _ Hs Hc)|].
    apply Qc_is_canon. vm_compute. reflexivity. }
  split; [exact Hs'|]. split; [exact Hc'|].
  destruct (Hzero float _ _ _ _ Hs') as (v & Hrun & Hv).
  exists v. split; [exact Hrun|]. rewrite (Hv Hc'). vm_compute. reflexivity.
Defined.

(** The machine's floats on the collector [ex_idle]: 2 inserts in 3
    seconds of sampled time. *)
Example OpsSec_ieee :
  OpsSec 1%positive "insert"%string (ex_world ex_idle)
  = Ok (PrimFloat.div 2%float 3%float, ex_world ex_idle).
Proof. rewrite (OpsSec_run _ _ ex_idle) by reflexivity. vm_compute. reflexivity. Qed.

Example LatencyInMs_ieee :
  LatencyInMs 1%positive "insert"%string (ex_world ex_idle) = Ok (1500%float, ex_world ex_idle).
Proof. rewrite (LatencyInMs_run _ _ ex_idle) by reflexivity. vm_compute. reflexivity. Qed.

(** C1, where the code departs from it.  [AllOpTypes] lists three types.
    One collector counted one ["insert"], so its total is 1;
    [CombineStats] of that collector alone holds count 1 for ["insert"]
    and total 3: the total of the input was added once for each type of
    the list. *)
Theorem CombineStats_total_once_per_listed_type :
  ∃ a w c w',
    (a ← NewStatsCollector; StartOp a "insert"%string 10 0.5%float;; mret a) ex_empty
      = Ok (a, w) ∧
    (total <$> heap w !! a) = Some 1 ∧
    (newStats ← CombineStats [a]; load newStats) w = Ok (c, w') ∧
    index (counts c) "insert"%string = 1 ∧
    total c = 3.
Proof.
  set (a := fresh (dom (heap ex_empty))).
  set (st := started (F := float) new_collector "insert"%string 10 0.5%float).
  assert (NoDup (AllOpTypes (OpType := string))) as Hnd.
  { compute_done. }
  assert (Forall2 (λ p o, heap (upd ex_empty a st) !! p = Some o) [a] [st]) as Hps.
  { constructor; [apply heap_upd|constructor]. }
  destruct (CombineStats_sums (upd ex_empty a st) [a] [st] Hnd Hps)
    as (newStats & c & w' & Hrun & Hc & Hsum & Htot).
  exists a, (upd ex_empty a st), c, w'.
  split.
  { rewrite bind_run, NewStatsCollector_run. cbv beta iota. rewrite bind_run.
    erewrite StartOp_run by apply heap_upd. cbv beta iota.
    by rewrite ret_run, upd_upd. }
  split; [rewrite heap_upd; vm_compute; reflexivity|].
  split.
  { rewrite bind_run, Hrun. cbv beta iota. by apply load_run. }
  split.
  - destruct (Hsum "insert"%string) as [-> _]; [|vm_compute; reflexivity].
    apply list_elem_of_In. vm_compute. by left.
  - rewrite Htot. vm_compute. reflexivity.
Qed.

(** * The further properties at concrete collectors *)

(** Two [EndOp] on the collector with a pending ["insert"]. *)
Lemma EndOp_twice_is_once_witness :
  heap (ex_world ex_pending) !! 1%positive = Some ex_pending ∧
  pending_ok ex_pending ∧
  ∃ w1, EndOp 1%positive 400 (ex_world ex_pending) = Ok (tt, w1) ∧
        EndOp 1%positive 900 w1 = Ok (tt, w1) ∧
        sent_on w1 7%positive = [mkLatency "insert"%string 300].
Proof.
  assert (heap (ex_world ex_pending) !! 1%positive = Some ex_pending) as Hs by reflexivity.
  assert (pending_ok ex_pending) as Hok by (intros _; eexists; reflexivity).
  split; [exact Hs|]. split; [exact Hok|].
  destruct (EndOp_twice_is_once (ex_world ex_pending) 1%positive ex_pending 400 900 Hs Hok)
    as (w1 & H1 & H2).
  exists w1. split; [exact H1|]. split; [exact H2|].
  rewrite (EndOp_pending _ _ ex_pending 100 "insert"%string 400 Hs eq_refl eq_refl) in H1.
  injection H1 as <-. reflexivity.
Defined.

(** Three operations at rate 1, on channel 7: two ["insert"] of 300 and 50
    nanoseconds and one ["query"] of 20. *)
Lemma sampled_operations_are_timed_witness :
  Forall (λ x, sampled (float64_of_int 1) (timing_draw x) = true)
         [mkTiming "insert"%string 100 400 0.75%float;
          mkTiming "query"%string 500 520 0.5%float;
          mkTiming "insert"%string 600 650 0.25%float] ∧
  ∃ s w',
    (s ← NewStatsCollector;
     SampleLatencies s (float64_of_int 1) (Some 7%positive);;
     range [mkTiming "insert"%string 100 400 0.75%float;
            mkTiming "query"%string 500 520 0.5%float;
            mkTiming "insert"%string 600 650 0.25%float] (timed s);;
     mret s) ex_empty = Ok (s, w') ∧
    TotalTime s "insert"%string w' = Ok (350, w') ∧
    TotalTime s "query"%string w' = Ok (20, w') ∧
    sent_on w' 7%positive = [mkLatency "insert"%string 300;
                             mkLatency "query"%string 20;
                             mkLatency "insert"%string 50] ∧
    sent_on w' 8%positive = [].
Proof.
  assert (Forall (λ x, sampled (float64_of_int 1) (timing_draw x) = true)
            [mkTiming "insert"%string 100 400 0.75%float;
             mkTiming "query"%string 500 520 0.5%float;
             mkTiming "insert"%string 600 650 0.25%float]) as Hxs.
  { repeat constructor; apply sampled_rate_1. }
  split; [exact Hxs|].
  destruct (sampled_operations_are_timed ex_empty (float64_of_int 1) (Some 7%positive) _ Hxs)
    as (s & w' & Hrun & Htot & Hsent).
  exists s, w'. split; [exact Hrun|].
  split; [exact (Htot "insert"%string)|].
  split; [exact (Htot "query"%string)|].
  split; [exact (Hsent 7%positive)|exact (Hsent 8%positive)].
Defined.

(** At rate 0, with channel 7 installed: two operations started and ended,
    one more started. *)
Lemma rate_zero_times_nothing_witness :
  feqb (float64_of_int 0) (float64_of_int (F := float) 0) = true ∧
  ∃ s vs w',
    (s ← NewStatsCollector;
     SampleLatencies s (float64_of_int 0) (Some 7%positive);;
     vs ← perform_all s [CallStartOp "insert"%string 100 0.25%float; CallEndOp 400;
                         CallStartOp "insert"%string 500 0.5%float; CallEndOp 900;
                         CallStartOp "query"%string 950 0.75%float];
     mret (s, vs)) ex_empty = Ok ((s, vs), w') ∧
    chans w' = chans ex_empty ∧
    TotalTime s "insert"%string w' = Ok (0, w') ∧
    Count s "insert"%string w' = Ok (2, w').
Proof.
  assert (feqb (float64_of_int 0) (float64_of_int (F := float) 0) = true) as Hrate
    by apply feqb_0_0.
  split; [exact Hrate|].
  destruct (rate_zero_times_nothing ex_empty (float64_of_int 0) (Some 7%positive)
              [CallStartOp "insert"%string 100 0.25%float; CallEndOp 400;
               CallStartOp "insert"%string 500 0.5%float; CallEndOp 900;
               CallStartOp "query"%string 950 0.75%float] Hrate)
    as (s & vs & w' & Hrun & Hch & Hq).
  { repeat constructor. }
  exists s, vs, w'. split; [exact Hrun|]. split; [exact Hch|].
  destruct (Hq "insert"%string) as [Ht Hc].
  split; [exact Ht|exact Hc].
Defined.

(** The two collectors of [ex_world2], the first one twice: 2 + 2 + 2
    inserts, 3 + 3 + 3 seconds. *)
Lemma CombineStats_Count_TotalTime_sum_witness :
  NoDup (AllOpTypes (OpType := string)) ∧
  "insert"%string ∈ AllOpTypes (OpType := string) ∧
  Forall2 (λ p z, Count p "insert"%string ex_world2 = Ok (z, ex_world2))
          [1; 2; 1]%positive [2; 2; 2] ∧
  Forall2 (λ p z, TotalTime p "insert"%string ex_world2 = Ok (z, ex_world2))
          [1; 2; 1]%positive [3000000000; 3000000000; 3000000000] ∧
  ∃ r w',
    CombineStats [1; 2; 1]%positive ex_world2 = Ok (r, w') ∧
    Count r "insert"%string w' = Ok (6, w') ∧
    TotalTime r "insert"%string w' = Ok (9000000000, w').
Proof.
  assert (NoDup (AllOpTypes (OpType := string))) as Hnd by compute_done.
  assert ("insert"%string ∈ AllOpTypes (OpType := string)) as Ht by (by left).
  assert (Forall2 (λ p z, Count p "insert"%string ex_world2 = Ok (z, ex_world2))
            [1; 2; 1]%positive [2; 2; 2]) as Hns by (repeat constructor).
  assert (Forall2 (λ p z, TotalTime p "insert"%string ex_world2 = Ok (z, ex_world2))
            [1; 2; 1]%positive [3000000000; 3000000000; 3000000000]) as Hds
    by (repeat constructor).
  do 4 (split; [assumption|]).
  destruct (CombineStats_Count_TotalTime_sum ex_world2 "insert"%string _ _ _ Hnd Ht Hns Hds)
    as (r & w' & Hrun & Hc & Hd & _).
  exists r, w'. split; [exact Hrun|]. split; [exact Hc|exact Hd].
Defined.

(** A collector that counted 5 operations of the type ["remove"], which
    [AllOpTypes] does not list. *)
Lemma CombineStats_drops_unlisted_types_witness :
  ("remove"%string ∉ AllOpTypes (OpType := string)) ∧
  Count 1%positive "remove"%string
        (ex_world (set_counts {["remove"%string := 5]} ex_idle))
    = Ok (5, ex_world (set_counts {["remove"%string := 5]} ex_idle)) ∧
  ∃ r w',
    CombineStats [1%positive] (ex_world (set_counts {["remove"%string := 5]} ex_idle))
      = Ok (r, w') ∧
    Count r "remove"%string w' = Ok (0, w') ∧
    TotalTime r "remove"%string w' = Ok (0, w').
Proof.
  assert ("remove"%string ∉ AllOpTypes (OpType := string)) as Ht by compute_done.
  split; [exact Ht|]. split; [reflexivity|].
  apply (CombineStats_drops_unlisted_types _ _ _ Ht).
  repeat constructor. eexists. reflexivity.
Defined.

(** 4 inserts in 2 seconds: 2 per second, 500 milliseconds each. *)
Lemma OpsSec_LatencyInMs_reciprocal_witness :
  heap (ex_world ex_exact) !! 1%positive = Some ex_exact ∧
  index (counts ex_exact) "insert"%string ≠ 0 ∧
  index (durations ex_exact) "insert"%string ≠ 0 ∧
  ∃ o l,
    OpsSec 1%positive "insert"%string (ex_world ex_exact) = Ok (o, ex_world ex_exact) ∧
    LatencyInMs 1%positive "insert"%string (ex_world ex_exact) = Ok (l, ex_world ex_exact) ∧
    (o * l = Qc_of_Z 1000)%Qc.
Proof.
  assert (heap (ex_world ex_exact) !! 1%positive = Some ex_exact) as Hs by reflexivity.
  assert (index (counts ex_exact) "insert"%string ≠ 0) as Hc by (vm_compute; discriminate).
  assert (index (durations ex_exact) "insert"%string ≠ 0) as Hd by (vm_compute; discriminate).
  do 3 (split; [assumption|]).
  exact (OpsSec_LatencyInMs_reciprocal _ _ _ _ Hs Hc Hd).
Defined.

(** At rate 1/4, the draw 1/2 does not start the timer and the draw 1/8
    does. *)
Lemma StartOp_samples_below_rate_witness :
  (∃ w' c',
     StartOp 1%positive "insert"%string 100 (Q2Qc (1 # 2))
             (ex_world (set_sampleRate (Q2Qc (1 # 4)) ex_exact)) = Ok (tt, w') ∧
     heap w' !! 1%positive = Some c' ∧
     (epoch c', lastOp c') = (None, None)) ∧
  (∃ w' c',
     StartOp 1%positive "insert"%string 100 (Q2Qc (1 # 8))
             (ex_world (set_sampleRate (Q2Qc (1 # 4)) ex_exact)) = Ok (tt, w') ∧
     heap w' !! 1%positive = Some c' ∧
     (epoch c', lastOp c') = (Some 100, Some "insert"%string)).
Proof.
  split.
  - apply (StartOp_samples_below_rate
             (ex_world (set_sampleRate (Q2Qc (1 # 4)) ex_exact)) 1%positive
             (set_sampleRate (Q2Qc (1 # 4)) ex_exact) "insert"%string 100 (Q2Qc (1 # 2)));
      [reflexivity|discriminate|reflexivity].
  - apply (StartOp_samples_below_rate
             (ex_world (set_sampleRate (Q2Qc (1 # 4)) ex_exact)) 1%positive
             (set_sampleRate (Q2Qc (1 # 4)) ex_exact) "insert"%string 100 (Q2Qc (1 # 8)));
      [reflexivity|discriminate|reflexivity].
Defined.

(** The collector with a pending ["insert"], its rate replaced by NaN. *)
Lemma StartOp_nan_rate_never_samples_witness :
  ∃ w' c',
    StartOp 1%positive "update"%string 150 0.25%float
            (ex_world (set_sampleRate nan ex_pending)) = Ok (tt, w') ∧
    heap w' !! 1%positive = Some c' ∧
    epoch c' = Some 100 ∧
    lastOp c' = Some "insert"%string ∧
    index (counts c') "update"%string = 1 ∧
    total c' = 3.
Proof.
  exact (StartOp_nan_rate_never_samples
           (ex_world (set_sampleRate nan ex_pending)) 1%positive
           (set_sampleRate nan ex_pending) "update"%string 150 0.25%float
           eq_refl eq_refl).
Defined.

(** Queries, an [EndOp] and a configuration, on both collectors. *)
Lemma unstarted_collector_answers_as_null_witness :
  ∃ w',
    (s ← NewStatsCollector;
     perform_all s [CallCount "insert"%string; CallEndOp 10;
                    CallSampleLatencies 0.5%float (Some 7%positive);
                    CallOpsSec "insert"%string; CallLatencyInMs "query"%string]) ex_empty
      = Ok ([VInt 0; VUnit; VUnit; VFloat 0%float; VFloat 0%float], w') ∧
    (e ← NewNullStatsCollector;
     perform_all e [CallCount "insert"%string; CallEndOp 10;
                    CallSampleLatencies 0.5%float (Some 7%positive);
                    CallOpsSec "insert"%string; CallLatencyInMs "query"%string]) ex_empty
      = Ok ([VInt 0; VUnit; VUnit; VFloat 0%float; VFloat 0%float], ex_empty).
Proof.
  destruct (unstarted_collector_answers_as_null ex_empty
              [CallCount "insert"%string; CallEndOp 10;
               CallSampleLatencies 0.5%float (Some 7%positive);
               CallOpsSec "insert"%string; CallLatencyInMs "query"%string])
    as (w' & Hreal & _ & Hnull).
  { repeat constructor. }
  exists w'. split; [exact Hreal|exact Hnull].
Defined.
